(** * adostats: the repository report generator of [analysis.py]

    A shallow embedding of [analysis.py] and the properties of its
    report: which rows reach [stats.csv], what each fetcher returns on
    success and on failure, and how far an exception travels.

    The script talks to the Azure DevOps REST API.  The server and the
    wall clock are the environment of a run; they are gathered in a
    [world], and every function of the script is a function of that
    world.  The output file, the standard output and the number of
    clock readings are threaded as an explicit state, and exceptions
    are values of an error monad over that state.

    The script is given twice: first on a terminal and a disk that
    take every line, which is where most of its properties are read;
    then on a [device] that can refuse a line, where writing a row or
    printing a line can raise and the handlers of the script see it. *)

From Stdlib Require Import ZArith NArith List String Ascii Bool Lia.
From Stdlib Require Import DecimalString.
Import ListNotations.

Set Warnings "-register-all".

Open Scope string_scope.
Open Scope list_scope.
Open Scope Z_scope.

(** ** Python values

    What [response.json()] hands back, and what the script stores in
    the cells of a row.

    A [string] holds the characters of a Python [str] one by one, so
    that its length is the number of characters; characters that an
    [ascii] cannot hold are not represented. *)

(** A binary64 float: [FNum neg m e] is [(-1)^neg * m * 2^e]. *)
Inductive pyfloat : Type :=
| FNum (neg : bool) (m : N) (e : Z)
| FInf (neg : bool)
| FNaN.

Inductive value : Type :=
| VNone
| VBool (b : bool)
| VInt (z : Z)
| VFloat (f : pyfloat)
| VStr (s : string)
| VList (l : list value)
| VDict (d : list (string * value)).

(** The exceptions the script can meet.  [HTTPError] is raised by
    [raise_for_status] only and carries [response.status_code];
    [ConnectionError] stands for every [RequestException] that
    [requests.get] itself raises (none of them is an [HTTPError]).
    [UnicodeEncodeError] and [OSError] are what writing to the file
    or to the standard output can raise: text that the encoding of
    the stream does not have, and a device that takes no more. *)
Inductive exn : Type :=
| HTTPError (status : Z)
| ConnectionError
| JSONDecodeError
| AttributeError
| KeyError (k : string)
| TypeError
| OverflowError
| UnicodeEncodeError
| OSError.

Inductive result (A : Type) : Type :=
| Ok (a : A)
| Err (e : exn).
Arguments Ok {A} a.
Arguments Err {A} e.

Definition rbind {A B} (r : result A) (k : A -> result B) : result B :=
  match r with
  | Ok a => k a
  | Err e => Err e
  end.

Declare Scope result_scope.
Delimit Scope result_scope with result.
Notation "'let?' x ':=' r 'in' k" := (rbind r (fun x => k))
  (at level 10, x name, r at level 100, k at level 200) : result_scope.
Open Scope result_scope.

(** *** Dictionaries *)

Fixpoint dict_lookup (k : string) (d : list (string * value)) : option value :=
  match d with
  | [] => None
  | (k', v) :: d' => if String.eqb k k' then Some v else dict_lookup k d'
  end.

(** [obj.get(key, default)]: defined on dictionaries only. *)
Definition py_get (obj : value) (key : string) (default : value) : result value :=
  match obj with
  | VDict d =>
      match dict_lookup key d with
      | Some v => Ok v
      | None => Ok default
      end
  | _ => Err AttributeError
  end.

(** [obj[key]] with a string key. *)
Definition py_getitem (obj : value) (key : string) : result value :=
  match obj with
  | VDict d =>
      match dict_lookup key d with
      | Some v => Ok v
      | None => Err (KeyError key)
      end
  | _ => Err TypeError
  end.

(** [key in obj] guarded by [isinstance(obj, dict)]. *)
Definition is_dict_with (key : string) (obj : value) : bool :=
  match obj with
  | VDict d =>
      match dict_lookup key d with
      | Some _ => true
      | None => false
      end
  | _ => false
  end.

(** *** Sequences *)

Fixpoint chars (s : string) : list value :=
  match s with
  | EmptyString => []
  | String c s' => VStr (String c EmptyString) :: chars s'
  end.

(** What a [for] loop or a comprehension walks over. *)
Definition py_iter (obj : value) : result (list value) :=
  match obj with
  | VList l => Ok l
  | VStr s => Ok (chars s)
  | VDict d => Ok (map (fun kv => VStr (fst kv)) d)
  | _ => Err TypeError
  end.

Definition py_len (obj : value) : result Z :=
  match obj with
  | VList l => Ok (Z.of_nat (List.length l))
  | VStr s => Ok (Z.of_nat (String.length s))
  | VDict d => Ok (Z.of_nat (List.length d))
  | _ => Err TypeError
  end.

(** [not obj]. *)
Definition py_not (obj : value) : bool :=
  match obj with
  | VNone => true
  | VBool b => negb b
  | VInt z => Z.eqb z 0
  | VFloat (FNum _ m _) => N.eqb m 0
  | VFloat _ => false
  | VStr s => String.eqb s ""
  | VList l => match l with [] => true | _ => false end
  | VDict d => match d with [] => true | _ => false end
  end.

(** [obj == s] for a string literal [s]. *)
Definition py_eq_str (obj : value) (s : string) : bool :=
  match obj with
  | VStr s' => String.eqb s' s
  | _ => false
  end.

(** ** Dates and times

    [datetime.now(timezone.utc)], [- timedelta(days=30)] and
    [strftime].  A datetime is kept as the proleptic Gregorian ordinal
    of its date ([date.toordinal()], day 1 is 0001-01-01) and its time
    of day; year, month and day are recovered from the ordinal the
    way CPython's [datetime] does. *)

Record datetime : Type := mkDatetime {
  dt_ordinal : Z;
  dt_hour : Z;
  dt_minute : Z;
  dt_second : Z;
  dt_microsecond : Z
}.

Definition MAXORDINAL : Z := 3652059.

Definition valid_datetime (t : datetime) : Prop :=
  1 <= dt_ordinal t <= MAXORDINAL /\
  0 <= dt_hour t < 24 /\ 0 <= dt_minute t < 60 /\
  0 <= dt_second t < 60 /\ 0 <= dt_microsecond t < 1000000.

Definition DI400Y : Z := 146097.
Definition DI100Y : Z := 36524.
Definition DI4Y : Z := 1461.

Definition days_in_month (leap : bool) (m : Z) : Z :=
  match m with
  | 1 => 31 | 2 => if leap then 29 else 28 | 3 => 31 | 4 => 30
  | 5 => 31 | 6 => 30 | 7 => 31 | 8 => 31
  | 9 => 30 | 10 => 31 | 11 => 30 | 12 => 31
  | _ => 0
  end.

Definition days_before_month (leap : bool) (m : Z) : Z :=
  (match m with
   | 1 => 0 | 2 => 31 | 3 => 59 | 4 => 90
   | 5 => 120 | 6 => 151 | 7 => 181 | 8 => 212
   | 9 => 243 | 10 => 273 | 11 => 304 | 12 => 334
   | _ => 0
   end) + (if (2 <? m) && leap then 1 else 0).

(** [_ord2ymd]: ordinal to (year, month, day). *)
Definition ord2ymd (ordinal : Z) : Z * Z * Z :=
  let n := ordinal - 1 in
  let n400 := n / DI400Y in
  let n := n mod DI400Y in
  let n100 := n / DI100Y in
  let n := n mod DI100Y in
  let n4 := n / DI4Y in
  let n := n mod DI4Y in
  let n1 := n / 365 in
  let n := n mod 365 in
  let year := n400 * 400 + 1 + n100 * 100 + n4 * 4 + n1 in
  if (n1 =? 4) || (n100 =? 4) then (year - 1, 12, 31)
  else
    let leapyear := (n1 =? 3) && (negb (n4 =? 24) || (n100 =? 3)) in
    let month := Z.shiftr (n + 50) 5 in
    let preceding := days_before_month leapyear month in
    if n <? preceding
    then (year, month - 1,
          n - (preceding - days_in_month leapyear (month - 1)) + 1)
    else (year, month, n - preceding + 1).

(** [t - timedelta(days=days)]: the date moves, the time of day
    stays; a date before year 1 or after year 9999 is refused. *)
Definition sub_days (t : datetime) (days : Z) : result datetime :=
  let o := dt_ordinal t - days in
  if (0 <? o) && (o <=? MAXORDINAL)
  then Ok (mkDatetime o (dt_hour t) (dt_minute t) (dt_second t)
             (dt_microsecond t))
  else Err OverflowError.

Definition digit (d : Z) : ascii := ascii_of_nat (48 + Z.to_nat d).

Definition pad2 (n : Z) : string :=
  String (digit (n / 10)) (String (digit (n mod 10)) EmptyString).

Definition pad4 (n : Z) : string :=
  String (digit (n / 1000))
    (String (digit (n / 100 mod 10)) (pad2 (n mod 100))).

(** [t.strftime('%Y-%m-%dT%H:%M:%SZ')]; the microseconds are not
    printed.  The year is written with four digits, which is what
    every C library does from year 1000 on. *)
Definition strftime_iso (t : datetime) : string :=
  let '(y, m, d) := ord2ymd (dt_ordinal t) in
  (pad4 y ++ "-" ++ pad2 m ++ "-" ++ pad2 d ++ "T" ++
   pad2 (dt_hour t) ++ ":" ++ pad2 (dt_minute t) ++ ":" ++
   pad2 (dt_second t) ++ "Z")%string.

(** ** Rendering the size

    [f"{size / 1024:.2f}" if isinstance(size, (int, float)) else size] *)

(** Nearest integer to [n / d], ties to even ([0 <= n], [0 < d]). *)
Definition round_half_even (n d : Z) : Z :=
  let q := n / d in
  let r := n mod d in
  if 2 * r <? d then q
  else if d <? 2 * r then q + 1
  else if Z.even q then q else q + 1.

(** The nearest binary64 to a natural number. *)
Definition round53 (n : Z) : Z :=
  if n <? 2 ^ 53 then n
  else let k := Z.log2 n - 52 in round_half_even n (2 ^ k) * 2 ^ k.

(** [z / 1024] on an [int]: the correctly rounded quotient. *)
Definition int_truediv_1024 (z : Z) : result pyfloat :=
  let a := round53 (Z.abs z) in
  if 2 ^ 1034 <=? a then Err OverflowError
  else Ok (FNum (z <? 0) (Z.to_N a) (-10)).

(** [f / 1024] on a [float].  A quotient too small for a normal
    binary64 is kept exact here; it prints as zero either way. *)
Definition float_truediv_1024 (f : pyfloat) : pyfloat :=
  match f with
  | FNum neg m e => FNum neg m (e - 10)
  | _ => f
  end.

Definition dec (n : Z) : string :=
  NilZero.string_of_uint (N.to_uint (Z.to_N n)).

(** The value of [m * 2^e] in hundredths, rounded half to even. *)
Definition hundredths (m : N) (e : Z) : Z :=
  if 0 <=? e then 100 * Z.of_N m * 2 ^ e
  else round_half_even (100 * Z.of_N m) (2 ^ (- e)).

(** [h] hundredths in fixed-point notation with two decimals. *)
Definition fixed2 (neg : bool) (h : Z) : string :=
  ((if neg then "-" else "") ++ dec (h / 100) ++ "." ++ pad2 (h mod 100))%string.

(** [format(f, '.2f')] *)
Definition format_2f (f : pyfloat) : string :=
  match f with
  | FNum neg m e => fixed2 neg (hundredths m e)
  | FInf neg => if neg then "-inf" else "inf"
  | FNaN => "nan"
  end.

Definition render_size (size : value) : result value :=
  match size with
  | VInt z =>
      match int_truediv_1024 z with
      | Ok q => Ok (VStr (format_2f q))
      | Err e => Err e
      end
  | VBool b =>
      match int_truediv_1024 (if b then 1 else 0) with
      | Ok q => Ok (VStr (format_2f q))
      | Err e => Err e
      end
  | VFloat f => Ok (VStr (format_2f (float_truediv_1024 f)))
  | _ => Ok size
  end.


(** ** The environment of a run *)

(** One constructor per URL the script builds; the interpolated parts
    of the f-string are the fields. *)
Inductive request : Type :=
| ReqProjects
| ReqRepositories (project_name : value)
| ReqRepository (project_name repo_id : value)
| ReqRefs (project_name repo_id : value)
| ReqItems (project_name repo_id : value)
| ReqPullRequests (project_name repo_id : value)
| ReqCommits (project_name repo_id : value) (fromDate toDate : string).

(** What [requests.get] comes back with: no response at all (the call
    raises), or a response with its status code and, when the body is
    JSON, the decoded body. *)
Inductive reply : Type :=
| NoReply
| Reply (status_code : Z) (body : option value).

(** The server answers a request the same way throughout a run; the
    clock is read once per commit query, [clock w n] being what the
    [n]-th reading of [datetime.now(timezone.utc)] returns. *)
Record world : Type := mkWorld {
  http : request -> reply;
  clock : nat -> datetime
}.

(** [response.raise_for_status()]: client and server errors raise. *)
Definition raise_for_status (status_code : Z) : result unit :=
  if (400 <=? status_code) && (status_code <? 600)
  then Err (HTTPError status_code)
  else Ok tt.

(** [requests.get(url, ...)], [response.raise_for_status()] and
    [response.json()] in a row. *)
Definition fetch_json (w : world) (rq : request) : result value :=
  match http w rq with
  | NoReply => Err ConnectionError
  | Reply status_code body =>
      let? _ := raise_for_status status_code in
      match body with
      | Some v => Ok v
      | None => Err JSONDecodeError
      end
  end.

(** ** The output file and the standard output *)

(** A row of [stats.csv], one field per column of [fieldnames]. *)
Record row : Type := mkRow {
  col_project_name : value;
  col_repository_name : value;
  col_repository_size_kb : value;
  col_last_updated : value;
  col_number_of_branches : value;
  col_file_count : value;
  col_open_prs : value;
  col_commits_in_last_30_days : value
}.

Inductive line : Type :=
| Header
| Data (r : row).

(** One constructor per [print] of the script, with the values it
    interpolates. *)
Inductive event : Type :=
| PrFetchingProjects
| PrFound (n : Z)
| PrProcessingProject (project_name : value)
| PrErrorFetchingRepositories (project_name : value) (e : exn)
| PrRepository (repo_name : value)
| PrDataWritten (repo_name : value)
| PrArchived (repo_id : value)
| PrHttpErrorMetadata (repo_id : value) (e : exn)
| PrRequestExceptionMetadata (repo_id : value) (e : exn)
| PrEmptyRepository (repo_id : value)
| PrHttpErrorFiles (repo_id : value) (e : exn)
| PrUnexpectedErrorFiles (repo_id : value) (e : exn).

(** [csvfile] holds the lines this run has written to [stats.csv],
    [stdout] what it has printed, [ticks] how often it has read the
    clock. *)
Record state : Type := mkState {
  csvfile : list line;
  stdout : list event;
  ticks : nat
}.

Definition initial : state := mkState [] [] 0%nat.

(** ** Computations: state and exceptions *)

Definition M (A : Type) : Type := state -> result A * state.

Definition ret {A} (a : A) : M A := fun s => (Ok a, s).

Definition bind {A B} (c : M A) (k : A -> M B) : M B :=
  fun s =>
    match c s with
    | (Ok a, s') => k a s'
    | (Err e, s') => (Err e, s')
    end.

Definition lift {A} (r : result A) : M A := fun s => (r, s).

(** [try: body  except Exception as e: handler] *)
Definition try_except {A} (body : M A) (handler : exn -> M A) : M A :=
  fun s =>
    match body s with
    | (Ok a, s') => (Ok a, s')
    | (Err e, s') => handler e s'
    end.

Declare Scope monad_scope.
Delimit Scope monad_scope with monad.
Notation "x <- c ;; k" := (bind c (fun x => k))
  (at level 61, c at next level, right associativity) : monad_scope.
Notation "c ;; k" := (bind c (fun _ => k))
  (at level 61, right associativity) : monad_scope.
Open Scope monad_scope.

(** [print], [writeheader] and [writerow] when the terminal and the
    disk take the line; [print_on], [writeheader_on] and [writerow_on]
    further down are the same operations when the line can be
    refused. *)
Definition print (ev : event) : M unit :=
  fun s => (Ok tt, mkState (csvfile s) (stdout s ++ [ev]) (ticks s)).

Definition writeheader : M unit :=
  fun s => (Ok tt, mkState (csvfile s ++ [Header]) (stdout s) (ticks s)).

Definition writerow (r : row) : M unit :=
  fun s => (Ok tt, mkState (csvfile s ++ [Data r]) (stdout s) (ticks s)).

Definition now (w : world) : M datetime :=
  fun s => (Ok (clock w (ticks s)),
            mkState (csvfile s) (stdout s) (S (ticks s))).

(** [for x in l: body x] *)
Fixpoint for_each {A} (body : A -> M unit) (l : list A) : M unit :=
  match l with
  | [] => ret tt
  | x :: l' => body x ;; for_each body l'
  end.

(** ** The fetchers *)

Definition get_projects (w : world) : result value :=
  let? data := fetch_json w ReqProjects in
  py_get data "value" (VList []).

Definition get_repositories (w : world) (project_name : value) : result value :=
  let? data := fetch_json w (ReqRepositories project_name) in
  py_get data "value" (VList []).

Definition ARCHIVED : value := VStr "Archived/Inaccessible".
Definition ERROR : value := VStr "Error".
Definition ERROR_FETCHING_FILES : value := VStr "Error fetching files".
Definition NA : value := VStr "N/A".

(** The [try] block of [get_repository_metadata]. *)
Definition repository_metadata_body (w : world) (repo_id project_name : value)
  : result (value * value) :=
  let? data := fetch_json w (ReqRepository project_name repo_id) in
  let? size := py_get data "size" (VInt 0) in
  let? project := py_get data "project" (VDict []) in
  let? last_updated := py_get project "lastUpdateTime" (VStr "Unknown") in
  Ok (size, last_updated).

Definition get_repository_metadata (w : world) (repo_id project_name : value)
  : M (value * value) :=
  try_except (lift (repository_metadata_body w repo_id project_name))
    (fun e =>
       match e with
       | HTTPError status_code =>
           if status_code =? 404
           then print (PrArchived repo_id) ;; ret (ARCHIVED, ARCHIVED)
           else print (PrHttpErrorMetadata repo_id e) ;; ret (ERROR, ERROR)
       | _ => print (PrRequestExceptionMetadata repo_id e) ;; ret (ERROR, ERROR)
       end).

Definition get_branches (w : world) (repo_id project_name : value)
  : result value :=
  let? data := fetch_json w (ReqRefs project_name repo_id) in
  let? branches := py_get data "value" (VList []) in
  let? n := py_len branches in
  Ok (VInt n).

(** The [try] block of [get_files]. *)
Definition files_body (w : world) (repo_id project_name : value)
  : result value :=
  let? data := fetch_json w (ReqItems project_name repo_id) in
  let? file_count := py_get data "count" VNone in
  match file_count with
  | VNone =>
      let? items := py_get data "value" (VList []) in
      let? items := py_iter items in
      Ok (VInt (Z.of_nat (List.length (filter (is_dict_with "size") items))))
  | _ => Ok file_count
  end.

Definition get_files (w : world) (repo_id project_name : value) : M value :=
  try_except (lift (files_body w repo_id project_name))
    (fun e =>
       match e with
       | HTTPError status_code =>
           if status_code =? 404
           then print (PrEmptyRepository repo_id) ;; ret (VInt 0)
           else print (PrHttpErrorFiles repo_id e) ;; ret ERROR_FETCHING_FILES
       | _ => print (PrUnexpectedErrorFiles repo_id e) ;; ret ERROR_FETCHING_FILES
       end).

(** [[pr for pr in pull_requests if pr["status"] == "active"]]: the
    comprehension stops at the first entry it cannot subscript. *)
Fixpoint active_prs (pull_requests : list value) : result (list value) :=
  match pull_requests with
  | [] => Ok []
  | pr :: rest =>
      let? status := py_getitem pr "status" in
      let? kept := active_prs rest in
      Ok (if py_eq_str status "active" then pr :: kept else kept)
  end.

Definition get_pull_request_metrics (w : world) (repo_id project_name : value)
  : result value :=
  let? data := fetch_json w (ReqPullRequests project_name repo_id) in
  let? pull_requests := py_get data "value" (VList []) in
  let? pull_requests := py_iter pull_requests in
  let? open_prs := active_prs pull_requests in
  Ok (VInt (Z.of_nat (List.length open_prs))).

(** [get_commit_frequency] once [end_date] is read from the clock. *)
Definition commit_frequency_at (w : world) (repo_id project_name : value)
    (end_date : datetime) : result value :=
  let? start_date := sub_days end_date 30 in
  let? data :=
    fetch_json w (ReqCommits project_name repo_id
                    (strftime_iso start_date) (strftime_iso end_date)) in
  let? commits := py_get data "value" (VList []) in
  let? n := py_len commits in
  Ok (VInt n).

Definition get_commit_frequency (w : world) (repo_id project_name : value)
  : M value :=
  end_date <- now w ;;
  lift (commit_frequency_at w repo_id project_name end_date).

(** ** [main] *)

Definition placeholder_row (project_name : value) : row :=
  mkRow project_name NA NA NA NA NA NA NA.

(** The body of [for repo in repositories]. *)
Definition repo_body (w : world) (project_name repo : value) : M unit :=
  repo_name <- lift (py_getitem repo "name") ;;
  repo_id <- lift (py_getitem repo "id") ;;
  print (PrRepository repo_name) ;;
  md <- try_except (get_repository_metadata w repo_id project_name)
          (fun _ => ret (ERROR, ERROR)) ;;
  branch_count <- lift (get_branches w repo_id project_name) ;;
  file_count <- get_files w repo_id project_name ;;
  open_prs <- lift (get_pull_request_metrics w repo_id project_name) ;;
  commit_frequency <- get_commit_frequency w repo_id project_name ;;
  size_kb <- lift (render_size (fst md)) ;;
  writerow (mkRow project_name repo_name size_kb (snd md)
              branch_count file_count open_prs commit_frequency) ;;
  print (PrDataWritten repo_name).

(** The [try] statement of the project loop: [None] when the loop
    moves on to the next project ([continue]), the repositories
    otherwise. *)
Definition list_or_skip (w : world) (project_name : value) : M (option value) :=
  try_except
    (repositories <- lift (get_repositories w project_name) ;;
     if py_not repositories
     then writerow (placeholder_row project_name) ;; ret None
     else ret (Some repositories))
    (fun e =>
       print (PrErrorFetchingRepositories project_name e) ;; ret None).

(** The body of [for project in projects]. *)
Definition project_body (w : world) (project : value) : M unit :=
  project_name <- lift (py_getitem project "name") ;;
  print (PrProcessingProject project_name) ;;
  r <- list_or_skip w project_name ;;
  match r with
  | None => ret tt
  | Some repositories =>
      repos <- lift (py_iter repositories) ;;
      for_each (repo_body w project_name) repos
  end.

Definition main (w : world) : M unit :=
  print PrFetchingProjects ;;
  projects <- lift (get_projects w) ;;
  n <- lift (py_len projects) ;;
  print (PrFound n) ;;
  writeheader ;;
  projects <- lift (py_iter projects) ;;
  for_each (project_body w) projects.

(** The data rows of the file, in order. *)
Fixpoint data_rows (f : list line) : list row :=
  match f with
  | [] => []
  | Header :: f' => data_rows f'
  | Data r :: f' => r :: data_rows f'
  end.

(** ** Output that can fail

    [print], [writeheader] and [writerow] above are the operations on
    a terminal and a disk that take every line.  The file is opened
    with a strict utf-8 encoding and the standard output has an
    encoding of its own, so a line can be refused
    ([UnicodeEncodeError]), and either device can give out
    ([OSError]).  A [device] says which attempts fail: [open_error] is
    what opening the file raises, [write_error d s l] what writing
    the line [l] raises when the run is in state [s], [print_error d
    s ev] what printing [ev] raises in state [s]; [None] is success.
    An attempt that raises leaves nothing in the file or on the
    output.

    The functions below are the functions of the script on such a
    device; on [reliable] they are the ones above. *)

Record device : Type := mkDevice {
  open_error : option exn;
  write_error : state -> line -> option exn;
  print_error : state -> event -> option exn
}.

Definition reliable : device :=
  mkDevice None (fun _ _ => None) (fun _ _ => None).

Definition print_on (d : device) (ev : event) : M unit :=
  fun s =>
    match print_error d s ev with
    | Some e => (Err e, s)
    | None => print ev s
    end.

(** [open(OUTPUT_FILE, mode="w", ...)] *)
Definition open_on (d : device) : M unit :=
  fun s =>
    match open_error d with
    | Some e => (Err e, s)
    | None => (Ok tt, s)
    end.

Definition writeheader_on (d : device) : M unit :=
  fun s =>
    match write_error d s Header with
    | Some e => (Err e, s)
    | None => writeheader s
    end.

Definition writerow_on (d : device) (r : row) : M unit :=
  fun s =>
    match write_error d s (Data r) with
    | Some e => (Err e, s)
    | None => writerow r s
    end.

(** An exception raised by a [print] of an [except] clause leaves the
    function: no clause of the same [try] catches it. *)
Definition get_repository_metadata_on (d : device) (w : world)
    (repo_id project_name : value) : M (value * value) :=
  try_except (lift (repository_metadata_body w repo_id project_name))
    (fun e =>
       match e with
       | HTTPError status_code =>
           if status_code =? 404
           then print_on d (PrArchived repo_id) ;; ret (ARCHIVED, ARCHIVED)
           else print_on d (PrHttpErrorMetadata repo_id e) ;; ret (ERROR, ERROR)
       | _ =>
           print_on d (PrRequestExceptionMetadata repo_id e) ;;
           ret (ERROR, ERROR)
       end).

Definition get_files_on (d : device) (w : world)
    (repo_id project_name : value) : M value :=
  try_except (lift (files_body w repo_id project_name))
    (fun e =>
       match e with
       | HTTPError status_code =>
           if status_code =? 404
           then print_on d (PrEmptyRepository repo_id) ;; ret (VInt 0)
           else print_on d (PrHttpErrorFiles repo_id e) ;;
                ret ERROR_FETCHING_FILES
       | _ =>
           print_on d (PrUnexpectedErrorFiles repo_id e) ;;
           ret ERROR_FETCHING_FILES
       end).

(** The metadata fetch with the [try] statement that [main] puts
    around it. *)
Definition guarded_metadata (d : device) (w : world)
    (repo_id project_name : value) : M (value * value) :=
  try_except (get_repository_metadata_on d w repo_id project_name)
    (fun _ => ret (ERROR, ERROR)).

Definition repo_body_on (d : device) (w : world) (project_name repo : value)
  : M unit :=
  repo_name <- lift (py_getitem repo "name") ;;
  repo_id <- lift (py_getitem repo "id") ;;
  print_on d (PrRepository repo_name) ;;
  md <- guarded_metadata d w repo_id project_name ;;
  branch_count <- lift (get_branches w repo_id project_name) ;;
  file_count <- get_files_on d w repo_id project_name ;;
  open_prs <- lift (get_pull_request_metrics w repo_id project_name) ;;
  commit_frequency <- get_commit_frequency w repo_id project_name ;;
  size_kb <- lift (render_size (fst md)) ;;
  writerow_on d (mkRow project_name repo_name size_kb (snd md)
                   branch_count file_count open_prs commit_frequency) ;;
  print_on d (PrDataWritten repo_name).

(** The placeholder row is written inside the [try]: what writing it
    raises is caught like a failure of the listing. *)
Definition list_or_skip_on (d : device) (w : world) (project_name : value)
  : M (option value) :=
  try_except
    (repositories <- lift (get_repositories w project_name) ;;
     if py_not repositories
     then writerow_on d (placeholder_row project_name) ;; ret None
     else ret (Some repositories))
    (fun e =>
       print_on d (PrErrorFetchingRepositories project_name e) ;; ret None).

Definition project_body_on (d : device) (w : world) (project : value)
  : M unit :=
  project_name <- lift (py_getitem project "name") ;;
  print_on d (PrProcessingProject project_name) ;;
  r <- list_or_skip_on d w project_name ;;
  match r with
  | None => ret tt
  | Some repositories =>
      repos <- lift (py_iter repositories) ;;
      for_each (repo_body_on d w project_name) repos
  end.

Definition main_on (d : device) (w : world) : M unit :=
  print_on d PrFetchingProjects ;;
  projects <- lift (get_projects w) ;;
  n <- lift (py_len projects) ;;
  print_on d (PrFound n) ;;
  open_on d ;;
  writeheader_on d ;;
  projects <- lift (py_iter projects) ;;
  for_each (project_body_on d w) projects.

(** ** A small organization to run the script on

    Two projects: ["Alpha"] with one repository ["repoA"] (3 branches,
    10 files, 2 active pull requests out of 3, 5 commits in the
    window) and ["Beta"] without repositories. *)

Module Scenario.

Definition json (v : value) : reply := Reply 200 (Some v).

Definition named (n : string) : value := VDict [("name", VStr n)].

Definition repoA : value :=
  VDict [("id", VStr "r-1"); ("name", VStr "repoA")].

Definition entries (n : nat) : value := VList (repeat (VDict []) n).

Definition pr (status : string) : value :=
  VDict [("pullRequestId", VInt 7); ("status", VStr status)].

Definition named_as (v : value) (s : string) : bool := py_eq_str v s.

Definition server (rq : request) : reply :=
  match rq with
  | ReqProjects =>
      json (VDict [("count", VInt 2);
                   ("value", VList [named "Alpha"; named "Beta"])])
  | ReqRepositories p =>
      if named_as p "Alpha" then json (VDict [("value", VList [repoA])])
      else if named_as p "Beta" then json (VDict [("value", VList []); ("count", VInt 0)])
      else Reply 404 None
  | ReqRepository p r =>
      if named_as p "Alpha" && named_as r "r-1"
      then json (VDict [("id", VStr "r-1"); ("size", VInt 204800);
                        ("project",
                         VDict [("name", VStr "Alpha");
                                ("lastUpdateTime", VStr "2024-01-15T08:30:00Z")])])
      else Reply 404 None
  | ReqRefs p r =>
      if named_as p "Alpha" && named_as r "r-1" then json (VDict [("value", entries 3)])
      else Reply 404 None
  | ReqItems p r =>
      if named_as p "Alpha" && named_as r "r-1"
      then json (VDict [("count", VInt 10); ("value", entries 10)])
      else Reply 404 None
  | ReqPullRequests p r =>
      if named_as p "Alpha" && named_as r "r-1"
      then json (VDict [("value",
                         VList [pr "active"; pr "completed"; pr "active"])])
      else Reply 404 None
  | ReqCommits p r _ _ =>
      if named_as p "Alpha" && named_as r "r-1" then json (VDict [("value", entries 5)])
      else Reply 404 None
  end.

(** 2024-03-01 12:34:56.789012 UTC at every reading. *)
Definition noon : datetime := mkDatetime 738946 12 34 56 789012.

Definition org : world := mkWorld server (fun _ => noon).

(** The same organization with one request answered differently. *)
Definition with_reply (rq_is : request -> bool) (r : reply) : world :=
  mkWorld (fun rq => if rq_is rq then r else server rq) (fun _ => noon).

Definition is_repositories_of (n : string) (rq : request) : bool :=
  match rq with ReqRepositories p => named_as p n | _ => false end.

Definition is_repository (rq : request) : bool :=
  match rq with ReqRepository _ _ => true | _ => false end.

Definition is_refs (rq : request) : bool :=
  match rq with ReqRefs _ _ => true | _ => false end.

Definition is_items (rq : request) : bool :=
  match rq with ReqItems _ _ => true | _ => false end.

Definition is_pull_requests (rq : request) : bool :=
  match rq with ReqPullRequests _ _ => true | _ => false end.

Definition is_commits (rq : request) : bool :=
  match rq with ReqCommits _ _ _ _ => true | _ => false end.

Definition is_projects (rq : request) : bool :=
  match rq with ReqProjects => true | _ => false end.

(** A file listing of four entries, two of them with a size. *)
Definition some_items : list value :=
  [VDict [("path", VStr "/"); ("isFolder", VBool true)];
   VDict [("path", VStr "/a.py"); ("size", VInt 12)];
   VStr "size";
   VDict [("size", VInt 0)]].

(** A commit dated 31 days before [noon]. *)
Definition old_commit : value :=
  VDict [("commitId", VStr "4f2a9c1");
         ("author", VDict [("name", VStr "dev");
                           ("date", VStr "2024-01-30T12:34:56Z")])].

(** A server that answers every commit query with [old_commit]. *)
Definition stale : world :=
  with_reply is_commits (json (VDict [("count", VInt 1);
                                      ("value", VList [old_commit])])).

Definition rowA : row :=
  mkRow (VStr "Alpha") (VStr "repoA") (VStr "200.00")
    (VStr "2024-01-15T08:30:00Z") (VInt 3) (VInt 10) (VInt 2) (VInt 5).

End Scenario.

(** Devices for the organization above. *)
Module Faults.

(** A file that refuses every row of the project named [n]: the name
    stands for one that strict utf-8 cannot encode. *)
Definition unencodable (n : string) : device :=
  mkDevice None
    (fun _ l =>
       match l with
       | Data r =>
           if py_eq_str (col_project_name r) n then Some UnicodeEncodeError
           else None
       | Header => None
       end)
    (fun _ _ => None).

(** A standard output that refuses the lines the metadata fetch
    prints when it fails. *)
Definition mute_metadata : device :=
  mkDevice None (fun _ _ => None)
    (fun _ ev =>
       match ev with
       | PrArchived _ | PrHttpErrorMetadata _ _
       | PrRequestExceptionMetadata _ _ => Some UnicodeEncodeError
       | _ => None
       end).

End Faults.

(** ** Vocabulary of the properties *)

(** A pull request whose status field is the string [s]. *)
Definition has_status (s : string) (pr : value) : bool :=
  match pr with
  | VDict d =>
      match dict_lookup "status" d with
      | Some (VStr s') => String.eqb s' s
      | _ => false
      end
  | _ => false
  end.

(** An entry that has a status field at all. *)
Definition has_status_field (pr : value) : Prop :=
  exists d v, pr = VDict d /\ dict_lookup "status" d = Some v.

(** [returns c a]: from every state, [c] returns [a], prints
    something and leaves the file and the clock alone. *)
Definition returns {A} (c : M A) (a : A) : Prop :=
  forall s, exists evs,
    c s = (Ok a, mkState (csvfile s) (stdout s ++ evs) (ticks s)).

(** The row [r] of a repository is made of what the fetchers return
    for it when the clock has been read [tick] times. *)
Record fetched (w : world) (project_name repo : value) (tick : nat)
    (repo_id : value) (metadata : value * value) (r : row) : Prop := mkFetched {
  f_name : py_getitem repo "name" = Ok (col_repository_name r);
  f_id : py_getitem repo "id" = Ok repo_id;
  f_md : returns (get_repository_metadata w repo_id project_name) metadata;
  f_branches :
    get_branches w repo_id project_name = Ok (col_number_of_branches r);
  f_files : returns (get_files w repo_id project_name) (col_file_count r);
  f_prs : get_pull_request_metrics w repo_id project_name = Ok (col_open_prs r);
  f_commits :
    commit_frequency_at w repo_id project_name (clock w tick)
    = Ok (col_commits_in_last_30_days r);
  f_size : render_size (fst metadata) = Ok (col_repository_size_kb r);
  f_updated : col_last_updated r = snd metadata;
  f_project : col_project_name r = project_name
}.

(** The ways [get_repository_metadata] can fail, with the marker each
    leaves in the size and last-updated fields. *)
Inductive metadata_failure (w : world) (repo_id project_name : value)
  : value -> Prop :=
| not_found (body : option value) :
    http w (ReqRepository project_name repo_id) = Reply 404 body ->
    metadata_failure w repo_id project_name (VStr "Archived/Inaccessible")
| other_error (e : exn) :
    repository_metadata_body w repo_id project_name = Err e ->
    e <> HTTPError 404 ->
    metadata_failure w repo_id project_name (VStr "Error").

(** [d[key]] when the key is there, [default] otherwise. *)
Definition field_or (d : list (string * value)) (key : string)
    (default : value) : value :=
  match dict_lookup key d with
  | Some v => v
  | None => default
  end.

(** The state of [main] when it enters the project loop: the header
    is written and the number of projects printed. *)
Definition opened (s0 : state) (n : Z) : state :=
  mkState (csvfile s0 ++ [Header])
    ((stdout s0 ++ [PrFetchingProjects]) ++ [PrFound n]) (ticks s0).

(** The state of the project loop when it enters the repository loop
    of a project. *)
Definition entered (s : state) (project_name : value) : state :=
  mkState (csvfile s) (stdout s ++ [PrProcessingProject project_name]) (ticks s).

(** [main], started in [s0], gets to the repository [repo] of the
    project named [project_name] in state [s]: the projects and the
    repositories before it have been processed without an exception. *)
Inductive reaches (w : world) (s0 : state) (project_name repo : value)
    (s : state) : Prop :=
| reach (projects project repositories : value)
    (before after repos_before repos_after : list value) (s1 : state) :
    get_projects w = Ok projects ->
    py_iter projects = Ok (before ++ project :: after) ->
    for_each (project_body w) before
      (opened s0 (Z.of_nat (List.length (before ++ project :: after))))
    = (Ok tt, s1) ->
    py_getitem project "name" = Ok project_name ->
    get_repositories w project_name = Ok repositories ->
    py_not repositories = false ->
    py_iter repositories = Ok (repos_before ++ repo :: repos_after) ->
    for_each (repo_body w project_name) repos_before (entered s1 project_name)
    = (Ok tt, s) ->
    reaches w s0 project_name repo s.

(** One of the three fetchers that [main] calls without a handler
    raises [e] for a repository, the ones called before it having
    returned. *)
Inductive unguarded_failure (w : world) (repo_id project_name : value)
    (tick : nat) (e : exn) : Prop :=
| branches_fail :
    get_branches w repo_id project_name = Err e ->
    unguarded_failure w repo_id project_name tick e
| pull_requests_fail (branch_count : value) :
    get_branches w repo_id project_name = Ok branch_count ->
    get_pull_request_metrics w repo_id project_name = Err e ->
    unguarded_failure w repo_id project_name tick e
| commits_fail (branch_count open_prs : value) :
    get_branches w repo_id project_name = Ok branch_count ->
    get_pull_request_metrics w repo_id project_name = Ok open_prs ->
    commit_frequency_at w repo_id project_name (clock w tick) = Err e ->
    unguarded_failure w repo_id project_name tick e.

(** The number of repositories of a listing. *)
Definition repo_count (repositories : value) : nat :=
  match repositories with
  | VList l => List.length l
  | _ => 0%nat
  end.

(** The rows a project adds to the file: none when it cannot be
    listed, one per repository otherwise and one for an empty
    listing. *)
Definition rows_of_project (w : world) (project : value) : nat :=
  match py_getitem project "name" with
  | Ok project_name =>
      match get_repositories w project_name with
      | Ok repositories => Nat.max 1 (repo_count repositories)
      | Err _ => 0%nat
      end
  | Err _ => 0%nat
  end.

(** The projects [main] walks over. *)
Definition listed_projects (w : world) : result (list value) :=
  let? projects := get_projects w in
  py_iter projects.

Definition n_rows (s : state) : nat := List.length (data_rows (csvfile s)).

(** Whole seconds from the start of day 0 of the calendar to [t]. *)
Definition to_seconds (t : datetime) : Z :=
  dt_ordinal t * 86400 + dt_hour t * 3600 + dt_minute t * 60 + dt_second t.

(** A timestamp between two bounds, both included. *)
Definition within (lo hi ts : Z) : bool := (lo <=? ts) && (ts <=? hi).

Definition is_digit (c : ascii) : bool :=
  let n := nat_of_ascii c in ((48 <=? n) && (n <=? 57))%nat.

Fixpoint matches (pattern : list (ascii -> bool)) (s : string) : bool :=
  match pattern, s with
  | [], EmptyString => true
  | p :: pattern', String c s' => p c && matches pattern' s'
  | _, _ => false
  end.

(** [YYYY-MM-DDThh:mm:ssZ] *)
Definition iso8601_utc (s : string) : bool :=
  matches
    [is_digit; is_digit; is_digit; is_digit; Ascii.eqb "-";
     is_digit; is_digit; Ascii.eqb "-"; is_digit; is_digit; Ascii.eqb "T";
     is_digit; is_digit; Ascii.eqb ":"; is_digit; is_digit; Ascii.eqb ":";
     is_digit; is_digit; Ascii.eqb "Z"] s.

(** The project and repository columns of a row. *)
Definition row_key (r : row) : value * value :=
  (col_project_name r, col_repository_name r).

(** The project and repository columns of the rows of a project, in
    the order of its listing. *)
Definition expected_keys (w : world) (project : value) : list (value * value) :=
  match py_getitem project "name" with
  | Ok project_name =>
      match get_repositories w project_name with
      | Ok repositories =>
          if py_not repositories then [(project_name, VStr "N/A")]
          else
            match py_iter repositories with
            | Ok repos =>
                map (fun repo =>
                       (project_name,
                        match py_getitem repo "name" with
                        | Ok repo_name => repo_name
                        | Err _ => VNone
                        end)) repos
            | Err _ => []
            end
      | Err _ => []
      end
  | Err _ => []
  end.

(** The line printed when the repositories of a project cannot be
    listed. *)
Definition is_listing_error (ev : event) : bool :=
  match ev with
  | PrErrorFetchingRepositories _ _ => true
  | _ => false
  end.

(** The project has a name and its repository listing raises. *)
Definition listing_raises (w : world) (project : value) : bool :=
  match py_getitem project "name" with
  | Ok project_name =>
      match get_repositories w project_name with
      | Ok _ => false
      | Err _ => true
      end
  | Err _ => false
  end.

(** How many times a run has printed that the repositories of a
    project could not be listed. *)
Definition listing_errors (s : state) : nat :=
  List.length (filter is_listing_error (stdout s)).

(** A computation that leaves the file as it is and does not print
    that the repositories of a project could not be listed. *)
Definition keeps_file {A} (c : M A) : Prop :=
  forall s,
    csvfile (snd (c s)) = csvfile s
    /\ listing_errors (snd (c s)) = listing_errors s.

(** A file that takes every row. *)
Definition takes_every_row (d : device) : Prop :=
  forall s r, write_error d s (Data r) = None.

(** What a project leaves behind in a run that goes on after it: the
    project and repository columns of its rows, and the number of
    lines that say its repositories could not be listed.  Either the
    rows of its repositories, or its placeholder row, or no row and
    one such line, because the listing raised or because the
    placeholder row could not be written. *)
Inductive project_outcome (d : device) (w : world) (project : value)
  : list (value * value) -> nat -> Prop :=
| wrote_repositories (project_name : value) (repos : list value) :
    py_getitem project "name" = Ok project_name ->
    get_repositories w project_name = Ok (VList repos) ->
    repos <> [] ->
    project_outcome d w project
      (map (fun repo =>
              (project_name,
               match py_getitem repo "name" with
               | Ok repo_name => repo_name
               | Err _ => VNone
               end)) repos) 0
| wrote_placeholder (project_name repositories : value) (s : state) :
    py_getitem project "name" = Ok project_name ->
    get_repositories w project_name = Ok repositories ->
    py_not repositories = true ->
    write_error d s (Data (placeholder_row project_name)) = None ->
    project_outcome d w project [(project_name, VStr "N/A")] 0
| skipped_listing (project_name : value) (e : exn) :
    py_getitem project "name" = Ok project_name ->
    get_repositories w project_name = Err e ->
    project_outcome d w project [] 1
| skipped_placeholder (project_name repositories : value) (s : state) (e : exn) :
    py_getitem project "name" = Ok project_name ->
    get_repositories w project_name = Ok repositories ->
    py_not repositories = true ->
    write_error d s (Data (placeholder_row project_name)) = Some e ->
    project_outcome d w project [] 1.

(** The number of rows of a project in a run that goes on after it:
    one per repository and one for an empty listing, or none when the
    listing raised or the placeholder row could not be written. *)
Inductive project_rows (d : device) (w : world) (project : value)
  : nat -> Prop :=
| rows_listed (project_name repositories : value) :
    py_getitem project "name" = Ok project_name ->
    get_repositories w project_name = Ok repositories ->
    project_rows d w project (Nat.max 1 (repo_count repositories))
| rows_listing_raised (project_name : value) (e : exn) :
    py_getitem project "name" = Ok project_name ->
    get_repositories w project_name = Err e ->
    project_rows d w project 0
| rows_placeholder_refused (project_name repositories : value)
    (s : state) (e : exn) :
    py_getitem project "name" = Ok project_name ->
    get_repositories w project_name = Ok repositories ->
    py_not repositories = true ->
    write_error d s (Data (placeholder_row project_name)) = Some e ->
    project_rows d w project 0.

(** * Properties *)

Example ord2ymd_2024_02_29 : ord2ymd 738945 = (2024, 2, 29).
Proof. reflexivity. Qed.

Example ord2ymd_last : ord2ymd MAXORDINAL = (9999, 12, 31).
Proof. reflexivity. Qed.

Example render_zero : render_size (VInt 0) = Ok (VStr "0.00").
Proof. reflexivity. Qed.

Example render_204800 : render_size (VInt 204800) = Ok (VStr "200.00").
Proof. reflexivity. Qed.

(** Ties go to the even hundredth, as [format] rounds them. *)
Example render_ties :
  render_size (VInt 128) = Ok (VStr "0.12")
  /\ render_size (VInt 384) = Ok (VStr "0.38")
  /\ render_size (VInt (-1536)) = Ok (VStr "-1.50")
  /\ render_size (VBool true) = Ok (VStr "0.00")
  /\ render_size (VFloat (FNum false 3073 (-1))) = Ok (VStr "1.50")
  /\ render_size (VInt (2 ^ 53 + 1)) = Ok (VStr "8796093022208.00")
  /\ render_size VNone = Ok VNone.
Proof. repeat split. Qed.

Example strftime_noon :
  strftime_iso Scenario.noon = "2024-03-01T12:34:56Z".
Proof. reflexivity. Qed.

(** The end-to-end scenario: a header, the row of Alpha/repoA and the
    placeholder row of Beta. *)
Example scenario_run :
  exists out,
    main Scenario.org initial
    = (Ok tt, mkState [Header; Data Scenario.rowA;
                       Data (placeholder_row (VStr "Beta"))] out 1%nat).
Proof. eexists. vm_compute. reflexivity. Qed.

(** ** Running computations *)

Lemma for_each_cons {A} (body : A -> M unit) (x : A) (l : list A) (s : state) :
  for_each body (x :: l) s
  = match body x s with
    | (Ok _, s') => for_each body l s'
    | (Err e, s') => (Err e, s')
    end.
Proof. reflexivity. Qed.

Lemma for_each_app {A} (body : A -> M unit) (l1 l2 : list A) (s s1 : state) :
  for_each body l1 s = (Ok tt, s1) ->
  for_each body (l1 ++ l2) s = for_each body l2 s1.
Proof.
  revert s. induction l1 as [|x l1 IH]; intros s H.
  - cbn in H. injection H as <-. reflexivity.
  - rewrite <- app_comm_cons, for_each_cons.
    rewrite for_each_cons in H.
    destruct (body x s) as [[[]|e] s']; [now apply IH | discriminate].
Qed.

Lemma data_rows_app (f g : list line) :
  data_rows (f ++ g) = data_rows f ++ data_rows g.
Proof.
  induction f as [|[|r] f IH]; cbn; [reflexivity | assumption | now f_equal].
Qed.

(** ** Listing failures *)

(** C9: when the repository listing of a project raises, the error is
    printed, nothing is written for the project and the loop goes on
    with the next project; when the project listing raises, [main]
    raises the same exception and the file is left untouched. *)
Theorem listing_failures
    (w : world) (project project_name : value) (rest : list value)
    (e : exn) (s : state) :
  (py_getitem project "name" = Ok project_name ->
   get_repositories w project_name = Err e ->
   for_each (project_body w) (project :: rest) s
   = for_each (project_body w) rest
       (mkState (csvfile s)
          (stdout s ++ [PrProcessingProject project_name;
                        PrErrorFetchingRepositories project_name e])
          (ticks s)))
  /\ (get_projects w = Err e ->
      main w s
      = (Err e, mkState (csvfile s) (stdout s ++ [PrFetchingProjects]) (ticks s))).
Proof.
  split.
  - intros Hname Hrepos.
    rewrite for_each_cons.
    unfold project_body, list_or_skip, try_except, bind, lift, print, ret.
    rewrite Hname, Hrepos. cbn. rewrite <- app_assoc. reflexivity.
  - intros Hprojects.
    unfold main, bind, lift, print. rewrite Hprojects. reflexivity.
Qed.

Lemma listing_failures_witness :
  for_each (project_body
              (Scenario.with_reply (Scenario.is_repositories_of "Alpha")
                 (Reply 500 None)))
    [Scenario.named "Alpha"; Scenario.named "Beta"] initial
  = (Ok tt,
     mkState [Data (placeholder_row (VStr "Beta"))]
       [PrProcessingProject (VStr "Alpha");
        PrErrorFetchingRepositories (VStr "Alpha") (HTTPError 500);
        PrProcessingProject (VStr "Beta")] 0%nat)
  /\ main (Scenario.with_reply Scenario.is_projects NoReply) initial
     = (Err ConnectionError, mkState [] [PrFetchingProjects] 0%nat).
Proof.
  split.
  - destruct (listing_failures
                (Scenario.with_reply (Scenario.is_repositories_of "Alpha")
                   (Reply 500 None))
                (Scenario.named "Alpha") (VStr "Alpha")
                [Scenario.named "Beta"] (HTTPError 500) initial) as [H _].
    rewrite (H eq_refl eq_refl). vm_compute. reflexivity.
  - destruct (listing_failures
                (Scenario.with_reply Scenario.is_projects NoReply)
                VNone VNone [] ConnectionError initial) as [_ H].
    exact (H eq_refl).
Defined.

(** ** Requests *)

Lemma fetch_json_ok (w : world) (rq : request) (status_code : Z) (v : value) :
  http w rq = Reply status_code (Some v) ->
  raise_for_status status_code = Ok tt ->
  fetch_json w rq = Ok v.
Proof. intros H Hs. unfold fetch_json. rewrite H, Hs. reflexivity. Qed.

Lemma fetch_json_http_error (w : world) (rq : request) (status_code : Z)
    (body : option value) :
  http w rq = Reply status_code body ->
  400 <= status_code < 600 ->
  fetch_json w rq = Err (HTTPError status_code).
Proof.
  intros H Hs. unfold fetch_json, raise_for_status. rewrite H.
  replace ((400 <=? status_code) && (status_code <? 600)) with true;
    [reflexivity|].
  symmetry. apply andb_true_iff. split; [apply Z.leb_le | apply Z.ltb_lt]; lia.
Qed.

Lemma raise_for_status_404 : raise_for_status 404 = Err (HTTPError 404).
Proof. reflexivity. Qed.

(** ** Pull requests *)

Lemma active_prs_filter (prs : list value) :
  Forall has_status_field prs ->
  active_prs prs = Ok (filter (has_status "active") prs).
Proof.
  induction 1 as [|pr prs (d & v & -> & Hv) _ IH]; [reflexivity|].
  cbn [active_prs filter]. unfold py_getitem, has_status.
  rewrite Hv, IH. cbn [rbind].
  destruct v; reflexivity.
Qed.

(** C6: the open pull request count is the number of entries of the
    listing whose status field is exactly "active". *)
Theorem open_prs_counts_active
    (w : world) (repo_id project_name : value) (status_code : Z)
    (d : list (string * value)) (prs : list value) :
  http w (ReqPullRequests project_name repo_id) = Reply status_code (Some (VDict d)) ->
  raise_for_status status_code = Ok tt ->
  dict_lookup "value" d = Some (VList prs) ->
  Forall has_status_field prs ->
  get_pull_request_metrics w repo_id project_name
  = Ok (VInt (Z.of_nat (List.length (filter (has_status "active") prs)))).
Proof.
  intros Hreply Hstatus Hvalue Hprs.
  unfold get_pull_request_metrics.
  rewrite (fetch_json_ok _ _ _ _ Hreply Hstatus). cbn [rbind py_get].
  rewrite Hvalue. cbn [py_iter rbind].
  rewrite (active_prs_filter _ Hprs). reflexivity.
Qed.

Lemma open_prs_counts_active_witness :
  get_pull_request_metrics Scenario.org (VStr "r-1") (VStr "Alpha")
  = Ok (VInt 2).
Proof.
  apply (open_prs_counts_active Scenario.org (VStr "r-1") (VStr "Alpha") 200
           [("value", VList [Scenario.pr "active"; Scenario.pr "completed";
                             Scenario.pr "active"])]
           [Scenario.pr "active"; Scenario.pr "completed"; Scenario.pr "active"]).
  - reflexivity.
  - reflexivity.
  - reflexivity.
  - repeat constructor;
      eexists; eexists; (split; [reflexivity | reflexivity]).
Defined.

(** ** File count *)

Lemma files_body_ok (w : world) (repo_id project_name : value)
    (status_code : Z) (d : list (string * value)) :
  http w (ReqItems project_name repo_id) = Reply status_code (Some (VDict d)) ->
  raise_for_status status_code = Ok tt ->
  files_body w repo_id project_name
  = match dict_lookup "count" d with
    | Some VNone | None =>
        let? items := py_get (VDict d) "value" (VList []) in
        let? items := py_iter items in
        Ok (VInt (Z.of_nat (List.length (filter (is_dict_with "size") items))))
    | Some file_count => Ok file_count
    end.
Proof.
  intros Hreply Hstatus. unfold files_body.
  rewrite (fetch_json_ok _ _ _ _ Hreply Hstatus). cbn [rbind py_get].
  destruct (dict_lookup "count" d) as [[]|]; reflexivity.
Qed.

Lemma get_files_of_body (w : world) (repo_id project_name : value) (s : state) :
  fst (get_files w repo_id project_name s)
  = match files_body w repo_id project_name with
    | Ok file_count => Ok file_count
    | Err (HTTPError status_code) =>
        if status_code =? 404 then Ok (VInt 0) else Ok ERROR_FETCHING_FILES
    | Err _ => Ok ERROR_FETCHING_FILES
    end.
Proof.
  unfold get_files, try_except, lift.
  destruct (files_body w repo_id project_name) as [v|[st| | | | | | | |]];
    try reflexivity.
  destruct (st =? 404); reflexivity.
Qed.

Lemma get_files_never_raises
    (w : world) (repo_id project_name : value) (s : state) :
  exists file_count, fst (get_files w repo_id project_name s) = Ok file_count.
Proof.
  rewrite get_files_of_body.
  destruct (files_body w repo_id project_name) as [v|[st| | | | | | | |]];
    try (eexists; reflexivity).
  destruct (st =? 404); eexists; reflexivity.
Qed.

(** C4: [get_files] returns the server's "count" when the response
    has one; without it, the number of entries of "value" that are
    objects with a "size" key; 0 on a 404 response; the marker
    "Error fetching files" on every other failure.  It never raises. *)
Theorem file_count_cases
    (w : world) (repo_id project_name : value) (s : state) :
  (forall status_code d file_count,
      http w (ReqItems project_name repo_id)
      = Reply status_code (Some (VDict d)) ->
      raise_for_status status_code = Ok tt ->
      dict_lookup "count" d = Some file_count ->
      file_count <> VNone ->
      fst (get_files w repo_id project_name s) = Ok file_count)
  /\ (forall status_code d items,
         http w (ReqItems project_name repo_id)
         = Reply status_code (Some (VDict d)) ->
         raise_for_status status_code = Ok tt ->
         dict_lookup "count" d = None \/ dict_lookup "count" d = Some VNone ->
         py_get (VDict d) "value" (VList []) = Ok (VList items) ->
         fst (get_files w repo_id project_name s)
         = Ok (VInt (Z.of_nat
                       (List.length (filter (is_dict_with "size") items)))))
  /\ (forall body,
         http w (ReqItems project_name repo_id) = Reply 404 body ->
         fst (get_files w repo_id project_name s) = Ok (VInt 0))
  /\ (forall e,
         files_body w repo_id project_name = Err e ->
         e <> HTTPError 404 ->
         fst (get_files w repo_id project_name s)
         = Ok (VStr "Error fetching files"))
  /\ (exists file_count,
         fst (get_files w repo_id project_name s) = Ok file_count).
Proof.
  rewrite get_files_of_body. split; [|split; [|split; [|split]]].
  - intros st d c Hreply Hstatus Hcount Hc.
    rewrite (files_body_ok _ _ _ _ _ Hreply Hstatus), Hcount.
    destruct c; try reflexivity. now contradiction Hc.
  - intros st d items Hreply Hstatus Hcount Hvalue.
    rewrite (files_body_ok _ _ _ _ _ Hreply Hstatus).
    destruct Hcount as [-> | ->]; rewrite Hvalue; reflexivity.
  - intros body Hreply. unfold files_body.
    rewrite (fetch_json_http_error _ _ _ _ Hreply) by lia. reflexivity.
  - intros e -> He.
    destruct e as [st| | | | | | | |]; try reflexivity.
    destruct (Z.eqb_spec st 404) as [->|]; [now contradiction He | reflexivity].
  - rewrite <- (get_files_of_body w repo_id project_name s).
    apply get_files_never_raises.
Qed.

Lemma file_count_cases_witness :
  fst (get_files Scenario.org (VStr "r-1") (VStr "Alpha") initial)
  = Ok (VInt 10)
  /\ fst (get_files
            (Scenario.with_reply Scenario.is_items
               (Scenario.json (VDict [("value", VList Scenario.some_items)])))
            (VStr "r-1") (VStr "Alpha") initial)
     = Ok (VInt 2)
  /\ fst (get_files (Scenario.with_reply Scenario.is_items (Reply 404 None))
            (VStr "r-1") (VStr "Alpha") initial)
     = Ok (VInt 0)
  /\ fst (get_files (Scenario.with_reply Scenario.is_items (Reply 503 None))
            (VStr "r-1") (VStr "Alpha") initial)
     = Ok (VStr "Error fetching files").
Proof.
  split; [|split; [|split]].
  - destruct (file_count_cases Scenario.org (VStr "r-1") (VStr "Alpha") initial)
      as (H & _).
    apply (H 200 [("count", VInt 10); ("value", Scenario.entries 10)]);
      [reflexivity | reflexivity | reflexivity | discriminate].
  - match goal with |- fst (get_files ?w _ _ _) = _ =>
      destruct (file_count_cases w (VStr "r-1") (VStr "Alpha") initial)
        as (_ & H & _)
    end.
    apply (H 200 [("value", VList Scenario.some_items)] Scenario.some_items);
      [reflexivity | reflexivity | left; reflexivity | reflexivity].
  - match goal with |- fst (get_files ?w _ _ _) = _ =>
      destruct (file_count_cases w (VStr "r-1") (VStr "Alpha") initial)
        as (_ & _ & H & _)
    end.
    apply (H None). reflexivity.
  - match goal with |- fst (get_files ?w _ _ _) = _ =>
      destruct (file_count_cases w (VStr "r-1") (VStr "Alpha") initial)
        as (_ & _ & _ & H & _)
    end.
    apply (H (HTTPError 503)); [reflexivity | discriminate].
Defined.

(** ** The row of a repository *)

Lemma state_eta (s : state) :
  s = mkState (csvfile s) (stdout s ++ []) (ticks s).
Proof. destruct s; cbn. now rewrite app_nil_r. Qed.

Lemma get_repository_metadata_of_body
    (w : world) (repo_id project_name : value) (s : state) :
  fst (get_repository_metadata w repo_id project_name s)
  = match repository_metadata_body w repo_id project_name with
    | Ok md => Ok md
    | Err (HTTPError status_code) =>
        if status_code =? 404 then Ok (ARCHIVED, ARCHIVED) else Ok (ERROR, ERROR)
    | Err _ => Ok (ERROR, ERROR)
    end.
Proof.
  unfold get_repository_metadata, try_except, lift.
  destruct (repository_metadata_body w repo_id project_name)
    as [v|[st| | | | | | | |]]; try reflexivity.
  destruct (st =? 404); reflexivity.
Qed.

Lemma get_repository_metadata_returns
    (w : world) (repo_id project_name : value) (s0 : state) (md : value * value) :
  fst (get_repository_metadata w repo_id project_name s0) = Ok md ->
  returns (get_repository_metadata w repo_id project_name) md.
Proof.
  rewrite get_repository_metadata_of_body. intros H s. revert H.
  unfold get_repository_metadata, try_except, lift, bind, print, ret.
  destruct (repository_metadata_body w repo_id project_name)
    as [v|[st| | | | | | | |]]; try destruct (st =? 404);
    intros [= <-]; eexists; try reflexivity.
  f_equal. apply state_eta.
Qed.

Lemma get_files_returns
    (w : world) (repo_id project_name : value) (s0 : state) (file_count : value) :
  fst (get_files w repo_id project_name s0) = Ok file_count ->
  returns (get_files w repo_id project_name) file_count.
Proof.
  rewrite get_files_of_body. intros H s. revert H.
  unfold get_files, try_except, lift, bind, print, ret.
  destruct (files_body w repo_id project_name)
    as [v|[st| | | | | | | |]]; try destruct (st =? 404);
    intros [= <-]; eexists; try reflexivity.
  f_equal. apply state_eta.
Qed.

Lemma get_repository_metadata_total
    (w : world) (repo_id project_name : value) :
  exists md, returns (get_repository_metadata w repo_id project_name) md.
Proof.
  destruct (fst (get_repository_metadata w repo_id project_name initial))
    as [md|e] eqn:H.
  - exists md. eapply get_repository_metadata_returns, H.
  - rewrite get_repository_metadata_of_body in H.
    destruct (repository_metadata_body w repo_id project_name)
      as [v|[st| | | | | | | |]]; try destruct (st =? 404); discriminate.
Qed.

Lemma get_files_total (w : world) (repo_id project_name : value) :
  exists file_count, returns (get_files w repo_id project_name) file_count.
Proof.
  destruct (get_files_never_raises w repo_id project_name initial) as [f H].
  exists f. eapply get_files_returns, H.
Qed.

Ltac run_step :=
  match goal with
  | H : returns ?c _ |- context [?c ?s] =>
      let evs := fresh "evs" in
      let E := fresh "E" in
      destruct (H s) as [evs E]; rewrite E; clear E; cbn iota beta
  | H : ?r = Ok _ |- context [?r] => rewrite H; cbn iota beta
  | H : ?r = Err _ |- context [?r] => rewrite H; cbn iota beta
  end.

Lemma repo_body_writes
    (w : world) (project_name repo repo_id : value) (metadata : value * value)
    (s : state) (r : row) :
  fetched w project_name repo (ticks s) repo_id metadata r ->
  exists out,
    repo_body w project_name repo s
    = (Ok tt, mkState (csvfile s ++ [Data r]) out (S (ticks s))).
Proof.
  intros [Hname Hid Hmd Hb Hf Hp Hc Hsize Hupd Hproj].
  destruct r as [c1 c2 c3 c4 c5 c6 c7 c8]; cbn in *. subst c1 c4.
  unfold repo_body, bind, lift.
  rewrite Hname, Hid. unfold print at 1, try_except. cbn iota beta.
  repeat run_step.
  unfold get_commit_frequency, bind, now, lift. cbn.
  repeat run_step. eexists. reflexivity.
Qed.

Lemma repo_body_inv
    (w : world) (project_name repo : value) (s s' : state) :
  repo_body w project_name repo s = (Ok tt, s') ->
  exists repo_id metadata r,
    fetched w project_name repo (ticks s) repo_id metadata r
    /\ csvfile s' = csvfile s ++ [Data r]
    /\ ticks s' = S (ticks s).
Proof.
  unfold repo_body, bind, lift.
  destruct (py_getitem repo "name") as [rn|] eqn:Hname; [|discriminate].
  destruct (py_getitem repo "id") as [rid|] eqn:Hid; [|discriminate].
  unfold print at 1, try_except. cbn iota beta.
  destruct (get_repository_metadata_total w rid project_name) as [md Hmd].
  destruct (get_files_total w rid project_name) as [f Hf].
  run_step.
  destruct (get_branches w rid project_name) as [b|] eqn:Hb; [|discriminate].
  run_step.
  destruct (get_pull_request_metrics w rid project_name) as [p|] eqn:Hp;
    [|discriminate].
  unfold get_commit_frequency, bind, now, lift. cbn.
  destruct (commit_frequency_at w rid project_name (clock w (ticks s)))
    as [c|] eqn:Hc; [|discriminate].
  destruct (render_size (fst md)) as [size_kb|] eqn:Hsize; [|discriminate].
  cbn. intros [= <-]. cbn.
  exists rid, md, (mkRow project_name rn size_kb (snd md) b f p c).
  split; [|split; reflexivity].
  now constructor.
Qed.

(** A repository whose row is not written leaves the file as it was. *)
Lemma repo_body_raises
    (w : world) (project_name repo : value) (e : exn) (s s' : state) :
  repo_body w project_name repo s = (Err e, s') ->
  csvfile s' = csvfile s.
Proof.
  unfold repo_body, bind, lift.
  destruct (py_getitem repo "name") as [rn|]; [|now intros [= _ <-]].
  destruct (py_getitem repo "id") as [rid|]; [|now intros [= _ <-]].
  unfold print at 1, try_except. cbn iota beta.
  destruct (get_repository_metadata_total w rid project_name) as [md Hmd].
  destruct (get_files_total w rid project_name) as [f Hf].
  run_step.
  destruct (get_branches w rid project_name) as [b|]; [|now intros [= _ <-]].
  run_step.
  destruct (get_pull_request_metrics w rid project_name) as [p|];
    [|now intros [= _ <-]].
  unfold get_commit_frequency, bind, now, lift. cbn.
  destruct (commit_frequency_at w rid project_name (clock w (ticks s)))
    as [c|]; [|now intros [= _ <-]].
  destruct (render_size (fst md)) as [size_kb|]; [|now intros [= _ <-]].
  discriminate.
Qed.

Lemma returns_fst {A} (c : M A) (a : A) :
  returns c a -> forall s, fst (c s) = Ok a.
Proof. intros H s. destruct (H s) as [evs ->]. reflexivity. Qed.

Lemma returns_unique {A} (c : M A) (a b : A) :
  returns c a -> returns c b -> a = b.
Proof.
  intros Ha Hb.
  pose proof (returns_fst _ _ Ha initial) as E.
  rewrite (returns_fst _ _ Hb initial) in E. now injection E.
Qed.

(** ** Repository metadata *)

Lemma repository_metadata_body_ok
    (w : world) (repo_id project_name : value) (status_code : Z)
    (d project : list (string * value)) :
  http w (ReqRepository project_name repo_id)
  = Reply status_code (Some (VDict d)) ->
  raise_for_status status_code = Ok tt ->
  dict_lookup "project" d = None /\ project = []
  \/ dict_lookup "project" d = Some (VDict project) ->
  repository_metadata_body w repo_id project_name
  = Ok (field_or d "size" (VInt 0),
        field_or project "lastUpdateTime" (VStr "Unknown")).
Proof.
  intros Hreply Hstatus Hproject. unfold repository_metadata_body.
  rewrite (fetch_json_ok _ _ _ _ Hreply Hstatus).
  unfold field_or, py_get. cbn [rbind].
  destruct Hproject as [[-> ->] | ->]; cbn [rbind dict_lookup];
    destruct (dict_lookup "size" d); cbn [rbind];
    try destruct (dict_lookup "lastUpdateTime" project); reflexivity.
Qed.

(** C10: on a successful metadata response the size is the "size"
    field of the response, 0 when there is none, and the last-updated
    value, which is the one written to the "Last Updated" column, is
    the "lastUpdateTime" field of the project object embedded in the
    response, "Unknown" when there is none. *)
Theorem metadata_fields
    (w : world) (repo_id project_name : value) (status_code : Z)
    (d project : list (string * value)) :
  http w (ReqRepository project_name repo_id)
  = Reply status_code (Some (VDict d)) ->
  raise_for_status status_code = Ok tt ->
  dict_lookup "project" d = None /\ project = []
  \/ dict_lookup "project" d = Some (VDict project) ->
  (forall s,
      fst (get_repository_metadata w repo_id project_name s)
      = Ok (field_or d "size" (VInt 0),
            field_or project "lastUpdateTime" (VStr "Unknown")))
  /\ (forall repo s s',
         py_getitem repo "id" = Ok repo_id ->
         repo_body w project_name repo s = (Ok tt, s') ->
         exists r,
           csvfile s' = csvfile s ++ [Data r]
           /\ col_last_updated r
              = field_or project "lastUpdateTime" (VStr "Unknown")).
Proof.
  intros Hreply Hstatus Hproject.
  assert (Hfst : forall s,
             fst (get_repository_metadata w repo_id project_name s)
             = Ok (field_or d "size" (VInt 0),
                   field_or project "lastUpdateTime" (VStr "Unknown"))).
  { intros s. rewrite get_repository_metadata_of_body.
    now rewrite (repository_metadata_body_ok _ _ _ _ _ _ Hreply Hstatus Hproject). }
  split; [exact Hfst|].
  intros repo s s' Hid Hrun.
  destruct (repo_body_inv _ _ _ _ _ Hrun) as (rid & md & r & Hr & Hfile & _).
  exists r. split; [exact Hfile|].
  destruct Hr as [_ Hid' Hmd _ _ _ _ _ Hupd _].
  rewrite Hid in Hid'. injection Hid' as <-.
  pose proof (returns_fst _ _ Hmd initial) as E.
  rewrite Hfst in E. injection E as <-. exact Hupd.
Qed.

Lemma metadata_fields_witness :
  fst (get_repository_metadata Scenario.org (VStr "r-1") (VStr "Alpha") initial)
  = Ok (VInt 204800, VStr "2024-01-15T08:30:00Z")
  /\ fst (get_repository_metadata
            (Scenario.with_reply Scenario.is_repository
               (Scenario.json (VDict [("updated", VStr "2023-12-31T00:00:00Z")])))
            (VStr "r-1") (VStr "Alpha") initial)
     = Ok (VInt 0, VStr "Unknown").
Proof.
  split.
  - apply (metadata_fields Scenario.org (VStr "r-1") (VStr "Alpha") 200
             [("id", VStr "r-1"); ("size", VInt 204800);
              ("project",
               VDict [("name", VStr "Alpha");
                      ("lastUpdateTime", VStr "2024-01-15T08:30:00Z")])]
             [("name", VStr "Alpha");
              ("lastUpdateTime", VStr "2024-01-15T08:30:00Z")]);
      [reflexivity | reflexivity | right; reflexivity].
  - match goal with |- fst (get_repository_metadata ?w _ _ _) = _ =>
      apply (metadata_fields w (VStr "r-1") (VStr "Alpha") 200
               [("updated", VStr "2023-12-31T00:00:00Z")] [])
    end; [reflexivity | reflexivity | left; split; reflexivity].
Defined.

(** C3: when the metadata fetch fails, [get_repository_metadata]
    returns a pair of markers instead of raising,
    "Archived/Inaccessible" twice on a 404 response and "Error" twice
    on every other failure, and the row of the repository is written
    with these two markers and with the four other metrics as their
    fetchers return them. *)
Theorem metadata_failure_keeps_row
    (w : world) (project_name repo repo_name repo_id marker : value)
    (branch_count open_prs commit_frequency : value) (s : state) :
  py_getitem repo "name" = Ok repo_name ->
  py_getitem repo "id" = Ok repo_id ->
  metadata_failure w repo_id project_name marker ->
  get_branches w repo_id project_name = Ok branch_count ->
  get_pull_request_metrics w repo_id project_name = Ok open_prs ->
  commit_frequency_at w repo_id project_name (clock w (ticks s))
  = Ok commit_frequency ->
  (forall s0,
      fst (get_repository_metadata w repo_id project_name s0)
      = Ok (marker, marker))
  /\ exists file_count s',
      (forall s0, fst (get_files w repo_id project_name s0) = Ok file_count)
      /\ repo_body w project_name repo s = (Ok tt, s')
      /\ csvfile s'
         = csvfile s ++
           [Data (mkRow project_name repo_name marker marker
                    branch_count file_count open_prs commit_frequency)].
Proof.
  intros Hname Hid Hfail Hb Hp Hc.
  assert (Hfst : forall s0,
             fst (get_repository_metadata w repo_id project_name s0)
             = Ok (marker, marker)).
  { intros s0. rewrite get_repository_metadata_of_body.
    destruct Hfail as [body Hreply | e He Hne].
    - unfold repository_metadata_body.
      rewrite (fetch_json_http_error _ _ _ _ Hreply) by lia. reflexivity.
    - rewrite He. destruct e as [st| | | | | | | |]; try reflexivity.
      destruct (Z.eqb_spec st 404) as [->|]; [now contradiction Hne | reflexivity]. }
  split; [exact Hfst|].
  destruct (get_files_total w repo_id project_name) as [f Hf].
  assert (Hmarker : render_size marker = Ok marker)
    by (destruct Hfail; reflexivity).
  destruct (repo_body_writes w project_name repo repo_id (marker, marker) s
              (mkRow project_name repo_name marker marker
                 branch_count f open_prs commit_frequency)) as [out Hrun].
  { constructor; cbn; try assumption; try reflexivity.
    eapply get_repository_metadata_returns, (Hfst initial). }
  exists f. eexists. split; [apply returns_fst, Hf|].
  split; [exact Hrun | reflexivity].
Qed.

Lemma metadata_failure_keeps_row_witness :
  exists s',
    repo_body (Scenario.with_reply Scenario.is_repository (Reply 404 None))
      (VStr "Alpha") Scenario.repoA initial = (Ok tt, s')
    /\ csvfile s'
       = [Data (mkRow (VStr "Alpha") (VStr "repoA")
                  (VStr "Archived/Inaccessible") (VStr "Archived/Inaccessible")
                  (VInt 3) (VInt 10) (VInt 2) (VInt 5))].
Proof.
  destruct (metadata_failure_keeps_row
              (Scenario.with_reply Scenario.is_repository (Reply 404 None))
              (VStr "Alpha") Scenario.repoA (VStr "repoA") (VStr "r-1")
              (VStr "Archived/Inaccessible") (VInt 3) (VInt 2) (VInt 5) initial
              eq_refl eq_refl
              (not_found
                 (Scenario.with_reply Scenario.is_repository (Reply 404 None))
                 (VStr "r-1") (VStr "Alpha") None eq_refl)
              eq_refl eq_refl eq_refl)
    as (_ & f & s' & Hf & Hrun & Hfile).
  exists s'. split; [exact Hrun|].
  rewrite Hfile. specialize (Hf initial). vm_compute in Hf.
  injection Hf as <-. reflexivity.
Defined.

(** ** The size field *)

Lemma round_half_even_spec (n d : Z) :
  0 <= n -> 0 < d ->
  0 <= round_half_even n d /\ 2 * Z.abs (d * round_half_even n d - n) <= d.
Proof.
  intros Hn Hd. unfold round_half_even.
  pose proof (Z.div_mod n d ltac:(lia)) as E.
  pose proof (Z.mod_pos_bound n d Hd) as B.
  assert (0 <= n / d) by (apply Z.div_pos; lia).
  destruct (Z.ltb_spec (2 * (n mod d)) d);
    [|destruct (Z.ltb_spec d (2 * (n mod d))); [|destruct (Z.even (n / d))]];
    split; nia.
Qed.

Lemma round53_small (n : Z) : n < 2 ^ 53 -> round53 n = n.
Proof.
  intros H. unfold round53. destruct (Z.ltb_spec n (2 ^ 53)); [reflexivity | lia].
Qed.

Lemma round53_nonneg (n : Z) : 0 <= n -> 0 <= round53 n.
Proof.
  intros H. unfold round53. destruct (Z.ltb_spec n (2 ^ 53)); [assumption|].
  assert (0 < 2 ^ (Z.log2 n - 52)) by (apply Z.pow_pos_nonneg; [lia|];
    assert (53 <= Z.log2 n) by (apply Z.log2_le_pow2; lia); lia).
  pose proof (round_half_even_spec n (2 ^ (Z.log2 n - 52)) H ltac:(assumption)).
  nia.
Qed.

Lemma hundredths_spec (m : N) (e : Z) :
  0 <= hundredths m e
  /\ (e <= 0 ->
      2 * Z.abs (2 ^ (- e) * hundredths m e - 100 * Z.of_N m) <= 2 ^ (- e))
  /\ (0 <= e -> hundredths m e = 100 * Z.of_N m * 2 ^ e).
Proof.
  unfold hundredths. destruct (Z.leb_spec 0 e) as [He|He].
  - assert (0 < 2 ^ e) by (apply Z.pow_pos_nonneg; lia).
    split; [nia|]. split; [|reflexivity].
    intros He'. assert (e = 0) as -> by lia.
    change (2 ^ (- 0)) with 1. change (2 ^ 0) with 1. lia.
  - assert (0 < 2 ^ (- e)) by (apply Z.pow_pos_nonneg; lia).
    destruct (round_half_even_spec (100 * Z.of_N m) (2 ^ (- e)))
      as [H0 H1]; [lia | assumption |].
    split; [assumption|]. split; [intros _; exact H1 | lia].
Qed.

(** C7: a numeric size is written as size / 1024 in fixed-point
    notation with two decimals: the integer part, a point and two
    digits, the nearest such number to the quotient ([204800] gives
    "200.00"); a size that is a string is written as it is; and the
    "Repository Size (KB)" field of every row written for a repository
    is the size of its metadata rendered this way. *)
Theorem size_rendering :
  render_size (VInt 204800) = Ok (VStr "200.00")
  /\ (forall z,
         round53 (Z.abs z) < 2 ^ 1034 ->
         exists h,
           render_size (VInt z) = Ok (VStr (fixed2 (z <? 0) h))
           /\ 0 <= h
           /\ 2 * Z.abs (1024 * h - 100 * round53 (Z.abs z)) <= 1024
           /\ (Z.abs z < 2 ^ 53 -> round53 (Z.abs z) = Z.abs z))
  /\ (forall neg m e,
         exists h,
           render_size (VFloat (FNum neg m e)) = Ok (VStr (fixed2 neg h))
           /\ 0 <= h
           /\ (e <= 10 ->
               2 * Z.abs (2 ^ (10 - e) * h - 100 * Z.of_N m) <= 2 ^ (10 - e))
           /\ (10 <= e -> h = 100 * Z.of_N m * 2 ^ (e - 10)))
  /\ (forall neg h,
         fixed2 neg h
         = ((if neg then "-" else "") ++ dec (h / 100) ++ "." ++
            String (digit (h mod 100 / 10))
              (String (digit (h mod 100 mod 10)) ""))%string)
  /\ (forall marker, render_size (VStr marker) = Ok (VStr marker))
  /\ (forall w project_name repo s s',
         repo_body w project_name repo s = (Ok tt, s') ->
         exists repo_id metadata r,
           csvfile s' = csvfile s ++ [Data r]
           /\ py_getitem repo "id" = Ok repo_id
           /\ (forall s0,
                  fst (get_repository_metadata w repo_id project_name s0)
                  = Ok metadata)
           /\ render_size (fst metadata) = Ok (col_repository_size_kb r)).
Proof.
  split; [reflexivity|]. split; [|split; [|split; [|split]]].
  - intros z Hz. exists (hundredths (Z.to_N (round53 (Z.abs z))) (-10)).
    pose proof (round53_nonneg (Z.abs z) (Z.abs_nonneg z)) as H0.
    destruct (hundredths_spec (Z.to_N (round53 (Z.abs z))) (-10))
      as (Hh & Hacc & _).
    rewrite Z2N.id in Hacc by assumption.
    split; [|split; [assumption | split; [apply Hacc; lia|]]].
    + unfold render_size, int_truediv_1024.
      destruct (Z.leb_spec (2 ^ 1034) (round53 (Z.abs z))); [lia | reflexivity].
    + intros Hsmall. now apply round53_small.
  - intros neg m e. exists (hundredths m (e - 10)).
    destruct (hundredths_spec m (e - 10)) as (Hh & Hacc & Hexact).
    split; [reflexivity|]. split; [assumption|]. split.
    + intros He. replace (10 - e) with (- (e - 10)) by lia. apply Hacc. lia.
    + intros He. apply Hexact. lia.
  - reflexivity.
  - reflexivity.
  - intros w project_name repo s s' Hrun.
    destruct (repo_body_inv _ _ _ _ _ Hrun) as (rid & md & r & Hr & Hfile & _).
    exists rid, md, r. destruct Hr.
    split; [assumption|]. split; [assumption|].
    split; [now apply returns_fst | assumption].
Qed.

Lemma size_rendering_witness :
  render_size (VInt 1536) = Ok (VStr "1.50")
  /\ exists r,
      csvfile (snd (repo_body Scenario.org (VStr "Alpha") Scenario.repoA initial))
      = [Data r]
      /\ col_repository_size_kb r = VStr "200.00".
Proof.
  destruct size_rendering as (_ & Hint & _ & _ & _ & Hrow). split.
  - destruct (Hint 1536) as (h & Hr & Hh & Hacc & Hsmall); [vm_compute; reflexivity|].
    rewrite Hr. rewrite Hsmall in Hacc by (vm_compute; reflexivity).
    change (Z.abs 1536) with 1536 in Hacc.
    assert (h = 150) as -> by lia. reflexivity.
  - destruct (Hrow Scenario.org (VStr "Alpha") Scenario.repoA initial
                (snd (repo_body Scenario.org (VStr "Alpha") Scenario.repoA initial)))
      as (rid & md & r & Hfile & Hid & Hmd & Hsize).
    { vm_compute. reflexivity. }
    exists r. split; [exact Hfile|].
    injection Hid as <-. specialize (Hmd initial).
    vm_compute in Hmd. injection Hmd as <-.
    vm_compute in Hsize. now injection Hsize.
Defined.

(** ** Exceptions that nothing catches *)

Lemma py_iter_len (v : value) (l : list value) :
  py_iter v = Ok l -> py_len v = Ok (Z.of_nat (List.length l)).
Proof.
  destruct v; cbn; try discriminate; intros [= <-].
  - f_equal. f_equal. induction s as [|c s IH]; cbn; [reflexivity | now f_equal].
  - reflexivity.
  - now rewrite length_map.
Qed.

Lemma main_enters_loop (w : world) (projects : value) (items : list value)
    (s0 : state) :
  get_projects w = Ok projects ->
  py_iter projects = Ok items ->
  main w s0
  = for_each (project_body w) items (opened s0 (Z.of_nat (List.length items))).
Proof.
  intros Hp Hi. unfold main, bind, lift, print, writeheader.
  rewrite Hp, (py_iter_len _ _ Hi), Hi. reflexivity.
Qed.

Lemma project_body_enters_loop (w : world) (project project_name repositories : value)
    (repos : list value) (s : state) :
  py_getitem project "name" = Ok project_name ->
  get_repositories w project_name = Ok repositories ->
  py_not repositories = false ->
  py_iter repositories = Ok repos ->
  project_body w project s
  = for_each (repo_body w project_name) repos (entered s project_name).
Proof.
  intros Hn Hr Hnot Hi.
  unfold project_body, list_or_skip, try_except, bind, lift, print, ret.
  rewrite Hn, Hr. cbn iota beta. rewrite Hnot, Hi. reflexivity.
Qed.

Lemma reaches_raise (w : world) (s0 s s' : state) (project_name repo : value)
    (e : exn) :
  reaches w s0 project_name repo s ->
  repo_body w project_name repo s = (Err e, s') ->
  main w s0 = (Err e, s').
Proof.
  intros [projects project repositories before after rb ra s1
            Hp Hi Hbefore Hn Hr Hnot Hri Hrb] Hbody.
  rewrite (main_enters_loop _ _ _ _ Hp Hi).
  rewrite (for_each_app _ _ _ _ _ Hbefore), for_each_cons.
  rewrite (project_body_enters_loop _ _ _ _ _ _ Hn Hr Hnot Hri).
  rewrite (for_each_app _ _ _ _ _ Hrb), for_each_cons, Hbody. reflexivity.
Qed.

Lemma unguarded_failure_raises (w : world) (project_name repo repo_name repo_id : value)
    (e : exn) (s : state) :
  py_getitem repo "name" = Ok repo_name ->
  py_getitem repo "id" = Ok repo_id ->
  unguarded_failure w repo_id project_name (ticks s) e ->
  exists s', repo_body w project_name repo s = (Err e, s').
Proof.
  intros Hname Hid Hfail.
  destruct (get_repository_metadata_total w repo_id project_name) as [md Hmd].
  destruct (get_files_total w repo_id project_name) as [f Hf].
  unfold repo_body, bind, lift. rewrite Hname, Hid.
  unfold print at 1, try_except. cbn iota beta.
  destruct Hfail as [Hb | b Hb Hp | b p Hb Hp Hc]; repeat run_step.
  - eexists. reflexivity.
  - eexists. reflexivity.
  - unfold get_commit_frequency, bind, now, lift. cbn.
    rewrite Hc. eexists. reflexivity.
Qed.

(** C2: an HTTP error status makes [get_branches],
    [get_pull_request_metrics] and [get_commit_frequency] raise, and
    when one of them raises for a repository that [main] has got to,
    [main] raises the same exception and the file is left as it was
    when the repository was reached: the row of the repository is not
    written and the run is over. *)
Theorem unguarded_fetch_failure_aborts
    (w : world) (s0 s : state) (project_name repo repo_name repo_id : value)
    (e : exn) :
  reaches w s0 project_name repo s ->
  py_getitem repo "name" = Ok repo_name ->
  py_getitem repo "id" = Ok repo_id ->
  unguarded_failure w repo_id project_name (ticks s) e ->
  (exists s', main w s0 = (Err e, s') /\ csvfile s' = csvfile s)
  /\ (forall status_code body,
         400 <= status_code < 600 ->
         (http w (ReqRefs project_name repo_id) = Reply status_code body ->
          get_branches w repo_id project_name = Err (HTTPError status_code))
         /\ (http w (ReqPullRequests project_name repo_id)
             = Reply status_code body ->
             get_pull_request_metrics w repo_id project_name
             = Err (HTTPError status_code))
         /\ (forall end_date start_date,
                sub_days end_date 30 = Ok start_date ->
                http w (ReqCommits project_name repo_id
                          (strftime_iso start_date) (strftime_iso end_date))
                = Reply status_code body ->
                commit_frequency_at w repo_id project_name end_date
                = Err (HTTPError status_code))).
Proof.
  intros Hreach Hname Hid Hfail. split.
  - destruct (unguarded_failure_raises _ _ _ _ _ _ _ Hname Hid Hfail)
      as [s' Hbody].
    exists s'. split.
    + eapply reaches_raise; eassumption.
    + eapply repo_body_raises, Hbody.
  - intros st body Hst. split; [|split].
    + intros H. unfold get_branches.
      now rewrite (fetch_json_http_error _ _ _ _ H Hst).
    + intros H. unfold get_pull_request_metrics.
      now rewrite (fetch_json_http_error _ _ _ _ H Hst).
    + intros t t0 Hsub H. unfold commit_frequency_at. rewrite Hsub. cbn [rbind].
      now rewrite (fetch_json_http_error _ _ _ _ H Hst).
Qed.

Lemma unguarded_fetch_failure_aborts_witness :
  exists s',
    main (Scenario.with_reply Scenario.is_pull_requests (Reply 500 None)) initial
    = (Err (HTTPError 500), s')
    /\ csvfile s' = [Header].
Proof.
  destruct (unguarded_fetch_failure_aborts
              (Scenario.with_reply Scenario.is_pull_requests (Reply 500 None))
              initial
              (mkState [Header]
                 [PrFetchingProjects; PrFound 2; PrProcessingProject (VStr "Alpha")]
                 0%nat)
              (VStr "Alpha") Scenario.repoA (VStr "repoA") (VStr "r-1")
              (HTTPError 500)) as [H _].
  - apply (reach _ _ _ _ _
             (VList [Scenario.named "Alpha"; Scenario.named "Beta"])
             (Scenario.named "Alpha") (VList [Scenario.repoA])
             [] [Scenario.named "Beta"] [] []
             (mkState [Header] [PrFetchingProjects; PrFound 2] 0%nat));
      reflexivity.
  - reflexivity.
  - reflexivity.
  - apply (pull_requests_fail _ _ _ _ _ (VInt 3)); reflexivity.
  - exact H.
Defined.

(** ** Counting the rows *)

Lemma falsy_listing (repositories : value) :
  py_not repositories = true -> Nat.max 1 (repo_count repositories) = 1%nat.
Proof. destruct repositories as [| | | | |[|]|]; (discriminate || reflexivity). Qed.

(** C1 as it is stated does not hold: a project whose listing raises
    gets no row at all, so the rows fall short of any sum that counts
    at least one row per project; and a branch listing that raises
    ends the run before the row of the repository is written. *)
Lemma a_project_without_a_row :
  (exists s',
      main (Scenario.with_reply (Scenario.is_repositories_of "Alpha")
              (Reply 500 None)) initial
      = (Ok tt, s')
      /\ listed_projects
           (Scenario.with_reply (Scenario.is_repositories_of "Alpha")
              (Reply 500 None))
         = Ok [Scenario.named "Alpha"; Scenario.named "Beta"]
      /\ data_rows (csvfile s') = [placeholder_row (VStr "Beta")]
      /\ forall repositories_in : value -> nat,
           List.length (data_rows (csvfile s'))
           <> list_sum (map (fun project => Nat.max 1 (repositories_in project))
                          [Scenario.named "Alpha"; Scenario.named "Beta"]))
  /\ (exists s',
         main (Scenario.with_reply Scenario.is_refs (Reply 500 None)) initial
         = (Err (HTTPError 500), s')
         /\ get_repositories
              (Scenario.with_reply Scenario.is_refs (Reply 500 None))
              (VStr "Alpha")
            = Ok (VList [Scenario.repoA])
         /\ data_rows (csvfile s') = []).
Proof.
  split.
  - eexists. split; [vm_compute; reflexivity|].
    split; [reflexivity|]. split; [reflexivity|].
    intros repositories_in. unfold list_sum.
    cbn [map fold_right csvfile data_rows List.length]. lia.
  - eexists. split; [vm_compute; reflexivity|].
    split; reflexivity.
Qed.

(** ** The commit window *)

Lemma month_day_bounds (leap : bool) (n : Z) :
  0 <= n <= 364 ->
  let month := Z.shiftr (n + 50) 5 in
  let preceding := days_before_month leap month in
  let md :=
    if n <? preceding
    then (month - 1, n - (preceding - days_in_month leap (month - 1)) + 1)
    else (month, n - preceding + 1) in
  1 <= fst md <= 12 /\ 1 <= snd md <= 31.
Proof.
  intros Hn. rewrite Z.shiftr_div_pow2 by lia. change (2 ^ 5) with 32.
  assert (Hm : 1 <= (n + 50) / 32 <= 12)
    by (Z.to_euclidean_division_equations; lia).
  pose proof (Z.div_mod (n + 50) 32 ltac:(lia)) as E.
  pose proof (Z.mod_pos_bound (n + 50) 32 ltac:(lia)) as B.
  cbv zeta. remember ((n + 50) / 32) as m eqn:Em. clear Em.
  assert (m = 1 \/ m = 2 \/ m = 3 \/ m = 4 \/ m = 5 \/ m = 6 \/ m = 7
          \/ m = 8 \/ m = 9 \/ m = 10 \/ m = 11 \/ m = 12) as Hc by lia.
  destruct leap;
    repeat (destruct Hc as [->|Hc]); try subst m;
    repeat match goal with
      | |- context [days_before_month ?l ?k] =>
          let v := eval vm_compute in (days_before_month l k) in
          change (days_before_month l k) with v
      | |- context [days_in_month ?l ?k] =>
          let v := eval vm_compute in (days_in_month l k) in
          change (days_in_month l k) with v
      end;
    match goal with |- context [?a <? ?b] => destruct (Z.ltb_spec a b) end;
    cbn [fst snd]; lia.
Qed.

Lemma year_bounds (o : Z) :
  1 <= o <= MAXORDINAL ->
  let n := o - 1 in
  let n400 := n / DI400Y in
  let n := n mod DI400Y in
  let n100 := n / DI100Y in
  let n := n mod DI100Y in
  let n4 := n / DI4Y in
  let n := n mod DI4Y in
  let n1 := n / 365 in
  let year := n400 * 400 + 1 + n100 * 100 + n4 * 4 + n1 in
  (if (n1 =? 4) || (n100 =? 4) then 1 <= year - 1 <= 9999
   else 1 <= year <= 9999)
  /\ 0 <= n mod 365 <= 364.
Proof.
  unfold MAXORDINAL, DI400Y, DI100Y, DI4Y. intros H. cbv zeta.
  destruct (Z.eqb_spec ((o - 1) mod 146097 mod 36524 mod 1461 / 365) 4);
    destruct (Z.eqb_spec ((o - 1) mod 146097 / 36524) 4); cbn [orb];
    Z.to_euclidean_division_equations; lia.
Qed.

Lemma ord2ymd_bounds (o : Z) :
  1 <= o <= MAXORDINAL ->
  let '(y, m, d) := ord2ymd o in
  1 <= y <= 9999 /\ 1 <= m <= 12 /\ 1 <= d <= 31.
Proof.
  intros H. pose proof (year_bounds o H) as [Hy Hn]. cbv zeta in Hy, Hn.
  unfold ord2ymd. cbv zeta.
  destruct ((_ =? 4) || (_ =? 4)); [lia|].
  match goal with
  | |- context [days_before_month ?l _] =>
      pose proof (month_day_bounds l _ Hn) as Hmd
  end.
  cbv zeta in Hmd.
  match goal with
  | |- context [if ?c then _ else _] => destruct c
  end; cbn [fst snd] in Hmd; lia.
Qed.

Lemma digit_is_digit (d : Z) : 0 <= d <= 9 -> is_digit (digit d) = true.
Proof.
  intros H.
  assert (d = 0 \/ d = 1 \/ d = 2 \/ d = 3 \/ d = 4 \/ d = 5 \/ d = 6
          \/ d = 7 \/ d = 8 \/ d = 9) as Hc by lia.
  repeat (destruct Hc as [->|Hc]); try subst d; reflexivity.
Qed.

Lemma pad2_digits (n : Z) :
  0 <= n < 100 ->
  exists a b,
    pad2 n = String a (String b EmptyString)
    /\ is_digit a = true /\ is_digit b = true.
Proof.
  intros H. eexists. eexists. split; [reflexivity|].
  split; apply digit_is_digit; Z.to_euclidean_division_equations; lia.
Qed.

Lemma pad4_digits (n : Z) :
  0 <= n < 10000 ->
  exists a b c d,
    pad4 n = String a (String b (String c (String d EmptyString)))
    /\ is_digit a = true /\ is_digit b = true
    /\ is_digit c = true /\ is_digit d = true.
Proof.
  intros H. do 4 eexists. split; [reflexivity|].
  repeat split; apply digit_is_digit; Z.to_euclidean_division_equations; lia.
Qed.

Lemma strftime_iso_shape (t : datetime) :
  valid_datetime t -> iso8601_utc (strftime_iso t) = true.
Proof.
  intros (Ho & Hh & Hm & Hs & _). unfold strftime_iso.
  pose proof (ord2ymd_bounds _ Ho) as Hymd.
  destruct (ord2ymd (dt_ordinal t)) as [[y m] d].
  destruct Hymd as (Hy & Hmo & Hd).
  destruct (pad4_digits y) as (y1 & y2 & y3 & y4 & -> & ? & ? & ? & ?); [lia|].
  destruct (pad2_digits m) as (m1 & m2 & -> & ? & ?); [lia|].
  destruct (pad2_digits d) as (d1 & d2 & -> & ? & ?); [lia|].
  destruct (pad2_digits (dt_hour t)) as (h1 & h2 & -> & ? & ?); [lia|].
  destruct (pad2_digits (dt_minute t)) as (i1 & i2 & -> & ? & ?); [lia|].
  destruct (pad2_digits (dt_second t)) as (s1 & s2 & -> & ? & ?); [lia|].
  cbn [String.append]. unfold iso8601_utc. cbn [matches].
  repeat match goal with H : is_digit _ = true |- _ => rewrite H; clear H end.
  reflexivity.
Qed.

Lemma get_commit_frequency_at (w : world) (repo_id project_name : value)
    (s : state) :
  fst (get_commit_frequency w repo_id project_name s)
  = commit_frequency_at w repo_id project_name (clock w (ticks s)).
Proof. reflexivity. Qed.

(** C8, as the code has it: the commit query asks for the commits
    from [now - 30 days] to [now], [now] being read from the UTC clock,
    and writes both bounds as [YYYY-MM-DDThh:mm:ssZ]; the count is the
    number of entries of the response, whatever their dates, since
    the script does no filtering of its own.  With a server that
    returns the commits dated within the two bounds, both included, a
    commit dated 31 days before [now] is not counted and one dated at
    the lower bound is. *)
Theorem commit_window
    (w : world) (repo_id project_name : value) (s : state) :
  valid_datetime (clock w (ticks s)) ->
  30 < dt_ordinal (clock w (ticks s)) ->
  exists start_date,
    let end_date := clock w (ticks s) in
    let rq :=
      ReqCommits project_name repo_id
        (strftime_iso start_date) (strftime_iso end_date) in
    sub_days end_date 30 = Ok start_date
    /\ to_seconds start_date = to_seconds end_date - 30 * 86400
    /\ iso8601_utc (strftime_iso start_date) = true
    /\ iso8601_utc (strftime_iso end_date) = true
    /\ fst (get_commit_frequency w repo_id project_name s)
       = (let? data := fetch_json w rq in
          let? commits := py_get data "value" (VList []) in
          let? n := py_len commits in
          Ok (VInt n))
    /\ (forall status_code d commits,
           http w rq = Reply status_code (Some (VDict d)) ->
           raise_for_status status_code = Ok tt ->
           dict_lookup "value" d = Some (VList commits) ->
           fst (get_commit_frequency w repo_id project_name s)
           = Ok (VInt (Z.of_nat (List.length commits))))
    /\ (forall (timestamp : value -> Z) (history : list value) status_code d,
           http w rq = Reply status_code (Some (VDict d)) ->
           raise_for_status status_code = Ok tt ->
           dict_lookup "value" d
           = Some (VList (filter
                            (fun c => within (to_seconds start_date)
                                        (to_seconds end_date) (timestamp c))
                            history)) ->
           fst (get_commit_frequency w repo_id project_name s)
           = Ok (VInt (Z.of_nat
                         (List.length
                            (filter
                               (fun c => within (to_seconds end_date - 30 * 86400)
                                           (to_seconds end_date) (timestamp c))
                               history)))))
    /\ within (to_seconds end_date - 30 * 86400) (to_seconds end_date)
         (to_seconds end_date - 31 * 86400) = false
    /\ within (to_seconds end_date - 30 * 86400) (to_seconds end_date)
         (to_seconds end_date - 30 * 86400) = true.
Proof.
  intros Hvalid Hord.
  set (end_date := clock w (ticks s)) in *.
  exists (mkDatetime (dt_ordinal end_date - 30) (dt_hour end_date)
            (dt_minute end_date) (dt_second end_date) (dt_microsecond end_date)).
  cbv zeta.
  set (start_date := mkDatetime _ _ _ _ _).
  assert (Hsub : sub_days end_date 30 = Ok start_date).
  { unfold sub_days. destruct Hvalid as (Ho & _).
    replace ((0 <? dt_ordinal end_date - 30)
             && (dt_ordinal end_date - 30 <=? MAXORDINAL)) with true;
      [reflexivity|].
    symmetry. apply andb_true_iff. split; [apply Z.ltb_lt | apply Z.leb_le]; lia. }
  assert (Hsec : to_seconds start_date = to_seconds end_date - 30 * 86400)
    by (unfold to_seconds, start_date; cbn; lia).
  assert (Hrun : fst (get_commit_frequency w repo_id project_name s)
                 = (let? data :=
                      fetch_json w
                        (ReqCommits project_name repo_id
                           (strftime_iso start_date) (strftime_iso end_date)) in
                    let? commits := py_get data "value" (VList []) in
                    let? n := py_len commits in
                    Ok (VInt n))).
  { rewrite get_commit_frequency_at. fold end_date.
    unfold commit_frequency_at. rewrite Hsub. reflexivity. }
  assert (Hcount : forall status_code d commits,
             http w (ReqCommits project_name repo_id
                       (strftime_iso start_date) (strftime_iso end_date))
             = Reply status_code (Some (VDict d)) ->
             raise_for_status status_code = Ok tt ->
             dict_lookup "value" d = Some (VList commits) ->
             fst (get_commit_frequency w repo_id project_name s)
             = Ok (VInt (Z.of_nat (List.length commits)))).
  { intros st d commits Hreply Hstatus Hvalue. rewrite Hrun.
    rewrite (fetch_json_ok _ _ _ _ Hreply Hstatus). cbn [rbind py_get].
    rewrite Hvalue. reflexivity. }
  split; [exact Hsub|]. split; [exact Hsec|].
  split.
  { apply strftime_iso_shape. destruct Hvalid as (Ho & Hrest).
    split; [cbn; lia | exact Hrest]. }
  split; [now apply strftime_iso_shape|].
  split; [exact Hrun|]. split; [exact Hcount|].
  split.
  { intros timestamp history st d Hreply Hstatus Hvalue.
    rewrite <- Hsec. eapply Hcount; eassumption. }
  unfold within. split.
  - apply andb_false_iff. left. apply Z.leb_gt. lia.
  - apply andb_true_iff. split; apply Z.leb_le; lia.
Qed.

Lemma commit_window_witness :
  fst (get_commit_frequency Scenario.org (VStr "r-1") (VStr "Alpha") initial)
  = (let? data :=
       fetch_json Scenario.org
         (ReqCommits (VStr "Alpha") (VStr "r-1")
            "2024-01-31T12:34:56Z" "2024-03-01T12:34:56Z") in
     let? commits := py_get data "value" (VList []) in
     let? n := py_len commits in
     Ok (VInt n)).
Proof.
  destruct (commit_window Scenario.org (VStr "r-1") (VStr "Alpha") initial)
    as (start_date & Hsub & _ & _ & _ & Hrun & _).
  - unfold valid_datetime, MAXORDINAL. cbn. lia.
  - cbn. lia.
  - cbv zeta in Hrun. vm_compute in Hsub. injection Hsub as <-. exact Hrun.
Defined.

(** C8 as it is stated does not hold: a commit dated 31 days before
    [now] that the server returns is counted. *)
Lemma stale_commit_is_counted :
  (exists t, sub_days (clock Scenario.stale 0%nat) 31 = Ok t
             /\ (let? author := py_getitem Scenario.old_commit "author" in
                 py_getitem author "date")
                = Ok (VStr (strftime_iso t)))
  /\ fst (get_commit_frequency Scenario.stale (VStr "r-1") (VStr "Alpha") initial)
     = Ok (VInt 1).
Proof.
  split; [|reflexivity].
  eexists. split; reflexivity.
Qed.

(** * Further properties *)

(** ** What an interrupted run leaves in the file *)

Lemma repo_loop_file (w : world) (project_name : value) (repos : list value)
    (s : state) :
  exists rows,
    csvfile (snd (for_each (repo_body w project_name) repos s))
    = csvfile s ++ map Data rows
    /\ (List.length rows <= List.length repos)%nat.
Proof.
  revert s. induction repos as [|repo repos IH]; intros s.
  - exists []. cbn. now rewrite app_nil_r.
  - rewrite for_each_cons.
    destruct (repo_body w project_name repo s) as [[[]|e] s1] eqn:Hbody.
    + destruct (repo_body_inv _ _ _ _ _ Hbody) as (rid & md & r & _ & Hfile & _).
      destruct (IH s1) as (rows & Hrows & Hlen).
      exists (r :: rows). rewrite Hrows, Hfile, <- app_assoc. cbn.
      split; [reflexivity | lia].
    + exists []. cbn. rewrite (repo_body_raises _ _ _ _ _ _ Hbody), app_nil_r.
      split; [reflexivity | lia].
Qed.

Lemma project_body_file (w : world) (project : value) (s : state) :
  exists rows,
    csvfile (snd (project_body w project s)) = csvfile s ++ map Data rows
    /\ (List.length rows <= rows_of_project w project)%nat.
Proof.
  unfold project_body, rows_of_project, list_or_skip, try_except, bind, lift.
  destruct (py_getitem project "name") as [pn|].
  2:{ exists []. cbn. now rewrite app_nil_r. }
  unfold print at 1. cbn iota beta.
  destruct (get_repositories w pn) as [repositories|e].
  2:{ exists []. cbn. now rewrite app_nil_r. }
  destruct (py_not repositories) eqn:Hnot.
  { exists [placeholder_row pn]. split; [reflexivity | cbn [List.length]; lia]. }
  unfold ret. cbn iota beta.
  destruct repositories as [| | | |str|l|d]; cbn [py_iter];
    try (exists []; cbn [snd map List.length]; rewrite app_nil_r;
         split; [reflexivity | lia]).
  - destruct str as [|c str]; [discriminate|].
    exists []. split; [cbn; now rewrite app_nil_r | cbn [List.length]; lia].
  - match goal with
    | |- context [for_each _ _ ?s1] =>
        destruct (repo_loop_file w pn l s1) as (rows & Hrows & Hlen)
    end.
    exists rows. split; [exact Hrows | cbn [repo_count]; lia].
  - destruct d as [|[k v] d]; [discriminate|].
    exists []. split; [cbn; now rewrite app_nil_r | cbn [List.length]; lia].
Qed.

Lemma project_loop_file (w : world) (projects : list value) (s : state) :
  exists rows,
    csvfile (snd (for_each (project_body w) projects s))
    = csvfile s ++ map Data rows
    /\ (List.length rows <= list_sum (map (rows_of_project w) projects))%nat.
Proof.
  revert s. induction projects as [|project projects IH]; intros s.
  - exists []. cbn. now rewrite app_nil_r.
  - rewrite for_each_cons.
    destruct (project_body_file w project s) as (rows1 & Hrows1 & Hlen1).
    destruct (project_body w project s) as [[[]|e] s1]; cbn [snd] in Hrows1.
    + destruct (IH s1) as (rows & Hrows & Hlen).
      exists (rows1 ++ rows).
      rewrite Hrows, Hrows1, <- app_assoc, map_app, length_app.
      split; [reflexivity|]. unfold list_sum in *. cbn [map fold_right]. lia.
    + exists rows1. split; [exact Hrows1|].
      unfold list_sum. cbn [map fold_right]. lia.
Qed.

Lemma main_file (w : world) (projects : list value) (s : state) :
  listed_projects w = Ok projects ->
  exists rows,
    csvfile (snd (main w s)) = csvfile s ++ Header :: map Data rows
    /\ (List.length rows <= list_sum (map (rows_of_project w) projects))%nat.
Proof.
  unfold listed_projects. intros H.
  destruct (get_projects w) as [v|] eqn:Hp; [|discriminate].
  cbn [rbind] in H.
  rewrite (main_enters_loop _ _ _ _ Hp H).
  destruct (project_loop_file w projects
              (opened s (Z.of_nat (List.length projects))))
    as (rows & Hrows & Hlen).
  exists rows. rewrite Hrows. cbn [opened csvfile].
  rewrite <- app_assoc. split; [reflexivity | exact Hlen].
Qed.



Lemma data_rows_map_Data (rows : list row) : data_rows (map Data rows) = rows.
Proof. induction rows as [|r rows IH]; cbn; [reflexivity | now f_equal]. Qed.

(** X2: a run never writes more rows than its projects call for:
    whether it ends normally or with an exception, the number of rows
    it adds is at most the sum over the projects of the rows of each
    (one per repository, one for an empty listing, none for a listing
    that raised). *)
Theorem rows_never_exceed (w : world) (projects : list value) (s : state) :
  listed_projects w = Ok projects ->
  (List.length (data_rows (csvfile (snd (main w s))))
   <= List.length (data_rows (csvfile s))
      + list_sum (map (rows_of_project w) projects))%nat.
Proof.
  intros H. destruct (main_file w projects s H) as (rows & Hrows & Hlen).
  rewrite Hrows, data_rows_app. cbn [data_rows].
  rewrite data_rows_map_Data, length_app. lia.
Qed.

Lemma rows_never_exceed_witness :
  (List.length
     (data_rows
        (csvfile
           (snd (main (Scenario.with_reply Scenario.is_commits (Reply 500 None))
                   initial))))
   <= 2)%nat.
Proof.
  apply (rows_never_exceed
           (Scenario.with_reply Scenario.is_commits (Reply 500 None))
           [Scenario.named "Alpha"; Scenario.named "Beta"] initial).
  reflexivity.
Defined.

(** ** Empty and missing listings *)

(** X4: when the project listing succeeds without projects (no
    "value" key, or an empty list), the run ends normally: it prints
    that it found 0 projects and the file holds the header alone. *)
Theorem no_projects_header_only
    (w : world) (status_code : Z) (d : list (string * value)) (s : state) :
  http w ReqProjects = Reply status_code (Some (VDict d)) ->
  raise_for_status status_code = Ok tt ->
  dict_lookup "value" d = None \/ dict_lookup "value" d = Some (VList []) ->
  main w s
  = (Ok tt,
     mkState (csvfile s ++ [Header])
       (stdout s ++ [PrFetchingProjects; PrFound 0]) (ticks s)).
Proof.
  intros Hreply Hstatus Hvalue.
  assert (Hp : get_projects w = Ok (VList [])).
  { unfold get_projects. rewrite (fetch_json_ok _ _ _ _ Hreply Hstatus).
    cbn [rbind py_get]. destruct Hvalue as [-> | ->]; reflexivity. }
  rewrite (main_enters_loop w (VList []) [] s Hp eq_refl).
  cbn [for_each]. unfold ret, opened. now rewrite <- app_assoc.
Qed.

Lemma no_projects_header_only_witness :
  main (Scenario.with_reply Scenario.is_projects
          (Scenario.json (VDict [("count", VInt 0)]))) initial
  = (Ok tt, mkState [Header] [PrFetchingProjects; PrFound 0] 0%nat).
Proof.
  apply (no_projects_header_only
           (Scenario.with_reply Scenario.is_projects
              (Scenario.json (VDict [("count", VInt 0)])))
           200 [("count", VInt 0)] initial);
    [reflexivity | reflexivity | left; reflexivity].
Defined.

(** ** Entries without a name *)

(** X6: a project entry without a "name" key ends the run: once the
    projects before it are processed, [main] raises [KeyError] and
    nothing is written or printed for that project or for the ones
    after it. *)
Theorem project_without_name_aborts
    (w : world) (projects : value) (before after : list value)
    (d : list (string * value)) (s0 s1 : state) :
  get_projects w = Ok projects ->
  py_iter projects = Ok (before ++ VDict d :: after) ->
  for_each (project_body w) before
    (opened s0 (Z.of_nat (List.length (before ++ VDict d :: after))))
  = (Ok tt, s1) ->
  dict_lookup "name" d = None ->
  main w s0 = (Err (KeyError "name"), s1).
Proof.
  intros Hp Hi Hbefore Hname.
  rewrite (main_enters_loop _ _ _ _ Hp Hi).
  rewrite (for_each_app _ _ _ _ _ Hbefore), for_each_cons.
  unfold project_body, bind, lift, py_getitem. rewrite Hname. reflexivity.
Qed.

Lemma project_without_name_aborts_witness :
  main (Scenario.with_reply Scenario.is_projects
          (Scenario.json
             (VDict [("value",
                      VList [Scenario.named "Beta";
                             VDict [("id", VStr "p-2")];
                             Scenario.named "Alpha"])]))) initial
  = (Err (KeyError "name"),
     mkState [Header; Data (placeholder_row (VStr "Beta"))]
       [PrFetchingProjects; PrFound 3; PrProcessingProject (VStr "Beta")]
       0%nat).
Proof.
  apply (project_without_name_aborts _
           (VList [Scenario.named "Beta"; VDict [("id", VStr "p-2")];
                   Scenario.named "Alpha"])
           [Scenario.named "Beta"] [Scenario.named "Alpha"]
           [("id", VStr "p-2")]); reflexivity.
Defined.

(** X7: a repository entry without a "name" key, or with a name but
    without an "id" key, ends the run: [main] raises [KeyError] for
    the missing key as soon as it gets to the entry, before any
    request is made for it, and the state is the one in which the
    entry was reached. *)
Theorem repository_without_name_or_id_aborts
    (w : world) (s0 s : state) (project_name : value)
    (d : list (string * value)) (key : string) :
  reaches w s0 project_name (VDict d) s ->
  dict_lookup "name" d = None /\ key = "name"
  \/ (exists repo_name, dict_lookup "name" d = Some repo_name)
     /\ dict_lookup "id" d = None /\ key = "id" ->
  main w s0 = (Err (KeyError key), s).
Proof.
  intros Hreach Hkey. apply (reaches_raise _ _ _ _ _ _ _ Hreach).
  unfold repo_body, bind, lift, py_getitem.
  destruct Hkey as [[Hname ->] | [[rn Hname] [Hid ->]]].
  - rewrite Hname. reflexivity.
  - rewrite Hname, Hid. reflexivity.
Qed.

Lemma repository_without_name_or_id_aborts_witness :
  main (Scenario.with_reply (Scenario.is_repositories_of "Alpha")
          (Scenario.json (VDict [("value", VList [VDict [("name", VStr "repoA")]])])))
    initial
  = (Err (KeyError "id"),
     mkState [Header]
       [PrFetchingProjects; PrFound 2; PrProcessingProject (VStr "Alpha")]
       0%nat).
Proof.
  apply (repository_without_name_or_id_aborts
           (Scenario.with_reply (Scenario.is_repositories_of "Alpha")
              (Scenario.json
                 (VDict [("value", VList [VDict [("name", VStr "repoA")]])])))
           initial _ (VStr "Alpha") [("name", VStr "repoA")] "id").
  - apply (reach _ _ _ _ _
             (VList [Scenario.named "Alpha"; Scenario.named "Beta"])
             (Scenario.named "Alpha") (VList [VDict [("name", VStr "repoA")]])
             [] [Scenario.named "Beta"] [] []
             (mkState [Header] [PrFetchingProjects; PrFound 2] 0%nat));
      reflexivity.
  - right. split; [eexists; reflexivity | split; reflexivity].
Defined.

(** ** More on the metadata fetch *)

(** X9: when the "project" field of a metadata response is there but
    is not an object (null, for one), both fields of the pair are the
    marker "Error", also when the response has a size. *)
Theorem project_field_not_an_object
    (w : world) (repo_id project_name : value) (status_code : Z)
    (d : list (string * value)) (project : value) (s : state) :
  http w (ReqRepository project_name repo_id)
  = Reply status_code (Some (VDict d)) ->
  raise_for_status status_code = Ok tt ->
  dict_lookup "project" d = Some project ->
  (forall p, project <> VDict p) ->
  fst (get_repository_metadata w repo_id project_name s)
  = Ok (VStr "Error", VStr "Error").
Proof.
  intros Hreply Hstatus Hproject Hnot.
  rewrite get_repository_metadata_of_body. unfold repository_metadata_body.
  rewrite (fetch_json_ok _ _ _ _ Hreply Hstatus). cbn [rbind py_get].
  destruct (dict_lookup "size" d); cbn [rbind]; rewrite Hproject;
    (destruct project as [| | | | | |p]; try reflexivity;
     now contradiction (Hnot p)).
Qed.

Lemma project_field_not_an_object_witness :
  fst (get_repository_metadata
         (Scenario.with_reply Scenario.is_repository
            (Scenario.json (VDict [("size", VInt 204800); ("project", VNone)])))
         (VStr "r-1") (VStr "Alpha") initial)
  = Ok (VStr "Error", VStr "Error").
Proof.
  apply (project_field_not_an_object
           (Scenario.with_reply Scenario.is_repository
              (Scenario.json (VDict [("size", VInt 204800); ("project", VNone)])))
           (VStr "r-1") (VStr "Alpha") 200
           [("size", VInt 204800); ("project", VNone)] VNone initial);
    [reflexivity | reflexivity | reflexivity | discriminate].
Defined.

(** ** More on the counts *)

Lemma active_prs_raises (before after : list value) (d : list (string * value)) :
  Forall has_status_field before ->
  dict_lookup "status" d = None ->
  active_prs (before ++ VDict d :: after) = Err (KeyError "status").
Proof.
  intros Hbefore Hd.
  induction Hbefore as [|pr before (d' & v & -> & Hv) _ IH].
  - cbn [app active_prs py_getitem]. rewrite Hd. reflexivity.
  - cbn [app active_prs py_getitem]. rewrite Hv, IH. reflexivity.
Qed.

(** X10: one pull request entry without a "status" key makes the whole
    count fail: [get_pull_request_metrics] raises [KeyError], however
    many entries before or after it are active. *)
Theorem pull_request_without_status_raises
    (w : world) (repo_id project_name : value) (status_code : Z)
    (d entry : list (string * value)) (before after : list value) :
  http w (ReqPullRequests project_name repo_id)
  = Reply status_code (Some (VDict d)) ->
  raise_for_status status_code = Ok tt ->
  dict_lookup "value" d = Some (VList (before ++ VDict entry :: after)) ->
  Forall has_status_field before ->
  dict_lookup "status" entry = None ->
  get_pull_request_metrics w repo_id project_name = Err (KeyError "status").
Proof.
  intros Hreply Hstatus Hvalue Hbefore Hentry.
  unfold get_pull_request_metrics.
  rewrite (fetch_json_ok _ _ _ _ Hreply Hstatus). cbn [rbind py_get].
  rewrite Hvalue. cbn [py_iter rbind].
  now rewrite (active_prs_raises _ _ _ Hbefore Hentry).
Qed.

Lemma pull_request_without_status_raises_witness :
  get_pull_request_metrics
    (Scenario.with_reply Scenario.is_pull_requests
       (Scenario.json
          (VDict [("value",
                   VList [Scenario.pr "active";
                          VDict [("pullRequestId", VInt 9)];
                          Scenario.pr "active"])])))
    (VStr "r-1") (VStr "Alpha")
  = Err (KeyError "status").
Proof.
  apply (pull_request_without_status_raises _ (VStr "r-1") (VStr "Alpha") 200
           [("value",
             VList [Scenario.pr "active"; VDict [("pullRequestId", VInt 9)];
                    Scenario.pr "active"])]
           [("pullRequestId", VInt 9)]
           [Scenario.pr "active"] [Scenario.pr "active"]);
    try reflexivity.
  repeat constructor. eexists. eexists. split; reflexivity.
Defined.

Lemma py_len_natural (v : value) (z : Z) :
  py_len v = Ok z -> exists n : nat, z = Z.of_nat n.
Proof. destruct v; cbn; try discriminate; intros [= <-]; eexists; reflexivity. Qed.

Lemma active_prs_length (l kept : list value) :
  active_prs l = Ok kept -> (List.length kept <= List.length l)%nat.
Proof.
  revert kept. induction l as [|pr l IH]; intros kept.
  - intros [= <-]. cbn. lia.
  - cbn [active_prs]. destruct (py_getitem pr "status") as [st|]; [|discriminate].
    cbn [rbind]. destruct (active_prs l) as [kept'|]; [|discriminate].
    cbn [rbind]. intros [= <-]. specialize (IH kept' eq_refl).
    destruct (py_eq_str st "active"); cbn; lia.
Qed.

(** X11: whatever the server sends, a branch count, an open pull
    request count or a commit count that is returned is a natural
    number, and the open pull request count is at most the number of
    entries of the listing. *)
Theorem counts_are_natural_numbers
    (w : world) (repo_id project_name : value) (end_date : datetime) (v : value) :
  (get_branches w repo_id project_name = Ok v ->
   exists n : nat, v = VInt (Z.of_nat n))
  /\ (get_pull_request_metrics w repo_id project_name = Ok v ->
      exists n : nat,
        v = VInt (Z.of_nat n)
        /\ forall data listing entries,
            fetch_json w (ReqPullRequests project_name repo_id) = Ok data ->
            py_get data "value" (VList []) = Ok listing ->
            py_iter listing = Ok entries ->
            (n <= List.length entries)%nat)
  /\ (commit_frequency_at w repo_id project_name end_date = Ok v ->
      exists n : nat, v = VInt (Z.of_nat n)).
Proof.
  split; [|split].
  - unfold get_branches.
    destruct (fetch_json w _) as [data|]; [|discriminate]. cbn [rbind].
    destruct (py_get data "value" (VList [])) as [branches|]; [|discriminate].
    cbn [rbind]. destruct (py_len branches) as [z|] eqn:Hlen; [|discriminate].
    cbn [rbind]. intros [= <-].
    destruct (py_len_natural _ _ Hlen) as [n ->]. now exists n.
  - unfold get_pull_request_metrics.
    destruct (fetch_json w _) as [data|] eqn:Hdata; [|discriminate].
    cbn [rbind].
    destruct (py_get data "value" (VList [])) as [listing|] eqn:Hlisting;
      [|discriminate].
    cbn [rbind].
    destruct (py_iter listing) as [entries|] eqn:Hentries; [|discriminate].
    cbn [rbind]. destruct (active_prs entries) as [kept|] eqn:Hkept; [|discriminate].
    cbn [rbind]. intros [= <-]. exists (List.length kept). split; [reflexivity|].
    intros data' listing' entries' [= <-].
    rewrite Hlisting. intros [= <-]. rewrite Hentries. intros [= <-].
    now apply active_prs_length.
  - unfold commit_frequency_at.
    destruct (sub_days end_date 30) as [start_date|]; [|discriminate].
    cbn [rbind]. destruct (fetch_json w _) as [data|]; [|discriminate].
    cbn [rbind].
    destruct (py_get data "value" (VList [])) as [commits|]; [|discriminate].
    cbn [rbind]. destruct (py_len commits) as [z|] eqn:Hlen; [|discriminate].
    cbn [rbind]. intros [= <-].
    destruct (py_len_natural _ _ Hlen) as [n ->]. now exists n.
Qed.

Lemma counts_are_natural_numbers_witness :
  (exists n : nat, VInt 3 = VInt (Z.of_nat n))
  /\ (exists n : nat, VInt 2 = VInt (Z.of_nat n) /\ (n <= 3)%nat)
  /\ (exists n : nat, VInt 5 = VInt (Z.of_nat n)).
Proof.
  split; [|split].
  - destruct (counts_are_natural_numbers Scenario.org (VStr "r-1") (VStr "Alpha")
                Scenario.noon (VInt 3)) as (H & _).
    exact (H eq_refl).
  - destruct (counts_are_natural_numbers Scenario.org (VStr "r-1") (VStr "Alpha")
                Scenario.noon (VInt 2)) as (_ & H & _).
    destruct (H eq_refl) as (n & Hn & Hle).
    exists n. split; [exact Hn|].
    exact (Hle _ _ _ eq_refl eq_refl eq_refl).
  - destruct (counts_are_natural_numbers Scenario.org (VStr "r-1") (VStr "Alpha")
                Scenario.noon (VInt 5)) as (_ & _ & H).
    exact (H eq_refl).
Defined.

(** X12: a successful response without a "value" key counts as an
    empty listing: the branch count, the open pull request count and
    the commit count are 0. *)
Theorem missing_value_counts_zero
    (w : world) (repo_id project_name : value) (status_code : Z)
    (d : list (string * value)) (end_date start_date : datetime) :
  raise_for_status status_code = Ok tt ->
  dict_lookup "value" d = None ->
  (http w (ReqRefs project_name repo_id) = Reply status_code (Some (VDict d)) ->
   get_branches w repo_id project_name = Ok (VInt 0))
  /\ (http w (ReqPullRequests project_name repo_id)
      = Reply status_code (Some (VDict d)) ->
      get_pull_request_metrics w repo_id project_name = Ok (VInt 0))
  /\ (sub_days end_date 30 = Ok start_date ->
      http w (ReqCommits project_name repo_id
                (strftime_iso start_date) (strftime_iso end_date))
      = Reply status_code (Some (VDict d)) ->
      commit_frequency_at w repo_id project_name end_date = Ok (VInt 0)).
Proof.
  intros Hstatus Hvalue. split; [|split].
  - intros Hreply. unfold get_branches.
    rewrite (fetch_json_ok _ _ _ _ Hreply Hstatus). cbn [rbind py_get].
    rewrite Hvalue. reflexivity.
  - intros Hreply. unfold get_pull_request_metrics.
    rewrite (fetch_json_ok _ _ _ _ Hreply Hstatus). cbn [rbind py_get].
    rewrite Hvalue. reflexivity.
  - intros Hsub Hreply. unfold commit_frequency_at. rewrite Hsub. cbn [rbind].
    rewrite (fetch_json_ok _ _ _ _ Hreply Hstatus). cbn [rbind py_get].
    rewrite Hvalue. reflexivity.
Qed.

Lemma missing_value_counts_zero_witness :
  get_branches
    (Scenario.with_reply Scenario.is_refs (Scenario.json (VDict [("count", VInt 0)])))
    (VStr "r-1") (VStr "Alpha")
  = Ok (VInt 0).
Proof.
  destruct (missing_value_counts_zero
              (Scenario.with_reply Scenario.is_refs
                 (Scenario.json (VDict [("count", VInt 0)])))
              (VStr "r-1") (VStr "Alpha") 200 [("count", VInt 0)]
              Scenario.noon Scenario.noon eq_refl eq_refl) as (H & _).
  exact (H eq_refl).
Defined.

(** X13: when a file listing has no count and its "value" is not a
    sequence (null, a boolean, a number), [get_files] returns the
    marker "Error fetching files"; when it is a string or an object,
    whose elements are never objects, it returns 0. *)
Theorem file_listing_value_not_a_list
    (w : world) (repo_id project_name : value) (status_code : Z)
    (d : list (string * value)) (v : value) (s : state) :
  http w (ReqItems project_name repo_id) = Reply status_code (Some (VDict d)) ->
  raise_for_status status_code = Ok tt ->
  dict_lookup "count" d = None \/ dict_lookup "count" d = Some VNone ->
  dict_lookup "value" d = Some v ->
  fst (get_files w repo_id project_name s)
  = match v with
    | VNone | VBool _ | VInt _ | VFloat _ => Ok (VStr "Error fetching files")
    | VStr _ | VDict _ => Ok (VInt 0)
    | VList items =>
        Ok (VInt (Z.of_nat (List.length (filter (is_dict_with "size") items))))
    end.
Proof.
  intros Hreply Hstatus Hcount Hvalue.
  rewrite get_files_of_body, (files_body_ok _ _ _ _ _ Hreply Hstatus).
  unfold py_get. rewrite Hvalue.
  assert (Hs : forall str, filter (is_dict_with "size") (chars str) = []).
  { induction str as [|c str IH]; [reflexivity | exact IH]. }
  assert (Hd : forall (l : list (string * value)),
             filter (is_dict_with "size") (map (fun kv => VStr (fst kv)) l) = []).
  { induction l as [|kv l IH]; [reflexivity | exact IH]. }
  destruct Hcount as [-> | ->]; destruct v; cbn [rbind py_iter];
    rewrite ?Hs, ?Hd; reflexivity.
Qed.

Lemma file_listing_value_not_a_list_witness :
  fst (get_files
         (Scenario.with_reply Scenario.is_items
            (Scenario.json (VDict [("value", VNone)])))
         (VStr "r-1") (VStr "Alpha") initial)
  = Ok (VStr "Error fetching files").
Proof.
  apply (file_listing_value_not_a_list
           (Scenario.with_reply Scenario.is_items
              (Scenario.json (VDict [("value", VNone)])))
           (VStr "r-1") (VStr "Alpha") 200 [("value", VNone)] VNone initial);
    [reflexivity | reflexivity | left; reflexivity | reflexivity].
Defined.

(** ** Whole kibibytes *)

(** X14: a size of [k] whole kibibytes, that is [1024 * k] bytes, is
    written as [k] followed by ".00", for every [k] below 2^43. *)
Theorem whole_kib_renders_exactly (k : Z) :
  0 <= k < 2 ^ 43 ->
  render_size (VInt (1024 * k)) = Ok (VStr (dec k ++ ".00")%string).
Proof.
  intros Hk.
  assert (H43 : 2 ^ 43 = 8796093022208) by reflexivity.
  assert (H53 : 2 ^ 53 = 9007199254740992) by reflexivity.
  assert (Hbig : 2 ^ 53 <= 2 ^ 1034) by (apply Z.pow_le_mono_r; lia).
  unfold render_size, int_truediv_1024.
  rewrite Z.abs_eq by lia. rewrite round53_small by lia.
  destruct (Z.leb_spec (2 ^ 1034) (1024 * k)) as [Hle|_]; [lia|].
  destruct (Z.ltb_spec (1024 * k) 0) as [Hlt|_]; [lia|].
  unfold format_2f, hundredths.
  change (0 <=? -10) with false. change (2 ^ (- -10)) with 1024. cbv iota.
  rewrite Z2N.id by lia.
  replace (100 * (1024 * k)) with (100 * k * 1024) by lia.
  unfold round_half_even. rewrite Z.div_mul, Z.mod_mul by lia.
  change (2 * 0 <? 1024) with true. cbv iota.
  unfold fixed2. replace (100 * k) with (k * 100) by lia.
  rewrite Z.div_mul, Z.mod_mul by lia. reflexivity.
Qed.

Lemma whole_kib_renders_exactly_witness :
  render_size (VInt (1024 * 200)) = Ok (VStr "200.00").
Proof.
  apply (whole_kib_renders_exactly 200). split; [lia | reflexivity].
Defined.

(** ** Every field of a row *)

(** X16: a row written for a repository holds what was fetched for
    that repository and nothing else: the name of the project, the
    "name" of the entry, and the branch, file, open pull request and
    commit counts exactly as their fetchers return them for the "id"
    of the entry, the commit count being the one of the window that
    ends at the next reading of the clock; writing the row costs one
    reading of the clock. *)
Theorem row_fields_are_fetched
    (w : world) (project_name repo : value) (s s' : state) :
  repo_body w project_name repo s = (Ok tt, s') ->
  exists r repo_id,
    csvfile s' = csvfile s ++ [Data r]
    /\ ticks s' = S (ticks s)
    /\ col_project_name r = project_name
    /\ py_getitem repo "name" = Ok (col_repository_name r)
    /\ py_getitem repo "id" = Ok repo_id
    /\ get_branches w repo_id project_name = Ok (col_number_of_branches r)
    /\ (forall s0,
           fst (get_files w repo_id project_name s0) = Ok (col_file_count r))
    /\ get_pull_request_metrics w repo_id project_name = Ok (col_open_prs r)
    /\ commit_frequency_at w repo_id project_name (clock w (ticks s))
       = Ok (col_commits_in_last_30_days r).
Proof.
  intros Hrun.
  destruct (repo_body_inv _ _ _ _ _ Hrun) as (rid & md & r & Hr & Hfile & Hticks).
  destruct Hr as [Hname Hid Hmd Hb Hf Hp Hc Hsize Hupd Hproj].
  exists r, rid. repeat (split; [assumption|]).
  split; [now apply returns_fst|]. split; assumption.
Qed.

Lemma row_fields_are_fetched_witness :
  exists r,
    csvfile (snd (repo_body Scenario.org (VStr "Alpha") Scenario.repoA initial))
    = [Data r]
    /\ col_number_of_branches r = VInt 3
    /\ col_open_prs r = VInt 2.
Proof.
  destruct (row_fields_are_fetched Scenario.org (VStr "Alpha") Scenario.repoA
              initial
              (snd (repo_body Scenario.org (VStr "Alpha") Scenario.repoA initial)))
    as (r & rid & Hfile & _ & _ & _ & Hid & Hb & _ & Hp & _).
  - vm_compute. reflexivity.
  - exists r. split; [exact Hfile|].
    injection Hid as <-.
    change (Ok (VInt 3) = Ok (col_number_of_branches r)) in Hb.
    change (Ok (VInt 2) = Ok (col_open_prs r)) in Hp.
    injection Hb as Hb. injection Hp as Hp. now split.
Defined.

(** ** Listings that are neither empty nor lists *)

(** X17: a repository listing whose "value" is true in a condition
    but is not a list (true, a number other than 0, a string or an
    object that is not empty) ends the run: the project loop raises
    [TypeError] right after printing that it processes the project,
    and no row is written for it. *)
Theorem truthy_listing_not_a_list_aborts
    (w : world) (project project_name repositories : value)
    (rest : list value) (s : state) :
  py_getitem project "name" = Ok project_name ->
  get_repositories w project_name = Ok repositories ->
  repositories = VBool true
  \/ (exists z, repositories = VInt z /\ z <> 0)
  \/ (exists c str, repositories = VStr (String c str))
  \/ (exists kv d, repositories = VDict (kv :: d)) ->
  for_each (project_body w) (project :: rest) s
  = (Err TypeError, entered s project_name).
Proof.
  intros Hname Hrepos Hcase.
  rewrite for_each_cons.
  unfold project_body, list_or_skip, try_except, bind, lift, print, ret.
  rewrite Hname, Hrepos. cbn iota beta.
  destruct Hcase as [-> | [(z & -> & Hz) | [(c & str & ->) | ([k v] & d & ->)]]].
  - reflexivity.
  - cbn [py_not]. destruct (Z.eqb_spec z 0); [contradiction | reflexivity].
  - reflexivity.
  - reflexivity.
Qed.

Lemma truthy_listing_not_a_list_aborts_witness :
  for_each
    (project_body
       (Scenario.with_reply (Scenario.is_repositories_of "Alpha")
          (Scenario.json (VDict [("value", VStr "none")]))))
    [Scenario.named "Alpha"; Scenario.named "Beta"] initial
  = (Err TypeError, mkState [] [PrProcessingProject (VStr "Alpha")] 0%nat).
Proof.
  apply (truthy_listing_not_a_list_aborts
           (Scenario.with_reply (Scenario.is_repositories_of "Alpha")
              (Scenario.json (VDict [("value", VStr "none")])))
           (Scenario.named "Alpha") (VStr "Alpha") (VStr "none")
           [Scenario.named "Beta"] initial);
    [reflexivity | reflexivity |].
  right. right. left. eexists. eexists. reflexivity.
Defined.

(** * The script on devices that can fail *)

(** On a device that never fails the script is the one studied
    above. *)
Lemma on_reliable_device (w : world) :
  main_on reliable w = main w
  /\ (forall project, project_body_on reliable w project = project_body w project)
  /\ (forall project_name repo,
         repo_body_on reliable w project_name repo
         = repo_body w project_name repo)
  /\ (forall repo_id project_name,
         get_repository_metadata_on reliable w repo_id project_name
         = get_repository_metadata w repo_id project_name)
  /\ (forall repo_id project_name,
         get_files_on reliable w repo_id project_name
         = get_files w repo_id project_name).
Proof. repeat split. Qed.

(** ** Steps that leave the file alone *)

Lemma listing_errors_print (ev : event) (s : state) :
  listing_errors (snd (print ev s))
  = (listing_errors s + if is_listing_error ev then 1 else 0)%nat.
Proof.
  unfold listing_errors, print. cbn [snd stdout].
  rewrite filter_app, length_app. cbn [filter].
  destruct (is_listing_error ev); reflexivity.
Qed.

Lemma keeps_ret {A} (a : A) : keeps_file (ret a).
Proof. intros s. split; reflexivity. Qed.

Lemma keeps_lift {A} (r : result A) : keeps_file (lift r).
Proof. intros s. split; reflexivity. Qed.

Lemma keeps_now (w : world) : keeps_file (now w).
Proof. intros s. split; reflexivity. Qed.

Lemma keeps_open_on (d : device) : keeps_file (open_on d).
Proof. intros s. unfold open_on. destruct (open_error d); split; reflexivity. Qed.

Lemma keeps_print_on (d : device) (ev : event) :
  is_listing_error ev = false -> keeps_file (print_on d ev).
Proof.
  intros H s. unfold print_on.
  destruct (print_error d s ev); (split; [reflexivity|]); [reflexivity|].
  rewrite listing_errors_print, H. lia.
Qed.

Lemma keeps_bind {A B} (c : M A) (k : A -> M B) :
  keeps_file c -> (forall a, keeps_file (k a)) -> keeps_file (bind c k).
Proof.
  intros Hc Hk s. unfold bind. specialize (Hc s).
  destruct (c s) as [[a|e] s1]; cbn [snd] in *; [|exact Hc].
  destruct (Hk a s1) as [H1 H2]. destruct Hc as [H3 H4].
  split; congruence.
Qed.

Lemma keeps_try {A} (body : M A) (handler : exn -> M A) :
  keeps_file body -> (forall e, keeps_file (handler e)) ->
  keeps_file (try_except body handler).
Proof.
  intros Hb Hh s. unfold try_except. specialize (Hb s).
  destruct (body s) as [[a|e] s1]; cbn [snd] in *; [exact Hb|].
  destruct (Hh e s1) as [H1 H2]. destruct Hb as [H3 H4].
  split; congruence.
Qed.

Ltac keeps_step :=
  first
    [ apply keeps_ret | apply keeps_lift | apply keeps_now | apply keeps_open_on
    | apply keeps_print_on; reflexivity
    | apply keeps_bind; [|intros ?] | apply keeps_try; [|intros ?] ].

Lemma keeps_get_repository_metadata_on (d : device) (w : world)
    (repo_id project_name : value) :
  keeps_file (get_repository_metadata_on d w repo_id project_name).
Proof.
  unfold get_repository_metadata_on. repeat keeps_step.
  destruct e as [st| | | | | | | |]; try destruct (st =? 404);
    repeat keeps_step.
Qed.

Lemma keeps_guarded_metadata (d : device) (w : world)
    (repo_id project_name : value) :
  keeps_file (guarded_metadata d w repo_id project_name).
Proof.
  unfold guarded_metadata. apply keeps_try.
  - apply keeps_get_repository_metadata_on.
  - intros e. apply keeps_ret.
Qed.

Lemma keeps_get_files_on (d : device) (w : world)
    (repo_id project_name : value) :
  keeps_file (get_files_on d w repo_id project_name).
Proof.
  unfold get_files_on. repeat keeps_step.
  destruct e as [st| | | | | | | |]; try destruct (st =? 404);
    repeat keeps_step.
Qed.

Lemma keeps_get_commit_frequency (w : world) (repo_id project_name : value) :
  keeps_file (get_commit_frequency w repo_id project_name).
Proof. unfold get_commit_frequency. repeat keeps_step. Qed.

Lemma bind_ok_inv {A B} (c : M A) (k : A -> M B) (s s' : state) (b : B) :
  bind c k s = (Ok b, s') ->
  exists a s1, c s = (Ok a, s1) /\ k a s1 = (Ok b, s').
Proof.
  unfold bind. destruct (c s) as [[a|e] s1]; [|discriminate].
  intros H. now exists a, s1.
Qed.

Lemma keeps_ok {A} (c : M A) (s s1 : state) (a : A) :
  keeps_file c -> c s = (Ok a, s1) ->
  csvfile s1 = csvfile s /\ listing_errors s1 = listing_errors s.
Proof. intros H E. specialize (H s). now rewrite E in H. Qed.

Lemma lift_ok_inv {A} (r : result A) (s s1 : state) (a : A) :
  lift r s = (Ok a, s1) -> r = Ok a /\ s1 = s.
Proof. unfold lift. intros [= -> ->]. now split. Qed.

Lemma writerow_on_ok_inv (d : device) (r : row) (s s1 : state) (u : unit) :
  writerow_on d r s = (Ok u, s1) ->
  write_error d s (Data r) = None
  /\ csvfile s1 = csvfile s ++ [Data r]
  /\ listing_errors s1 = listing_errors s.
Proof.
  unfold writerow_on. destruct (write_error d s (Data r)); [discriminate|].
  intros [= _ <-]. repeat split.
Qed.

(** ** The rows of a run that goes on *)

Lemma repo_body_on_ok (d : device) (w : world) (project_name repo : value)
    (s s' : state) :
  repo_body_on d w project_name repo s = (Ok tt, s') ->
  exists r,
    csvfile s' = csvfile s ++ [Data r]
    /\ col_project_name r = project_name
    /\ py_getitem repo "name" = Ok (col_repository_name r)
    /\ listing_errors s' = listing_errors s.
Proof.
  unfold repo_body_on. intros H.
  apply bind_ok_inv in H. destruct H as (rn & s1 & E1 & H).
  apply lift_ok_inv in E1. destruct E1 as [Hname ->].
  apply bind_ok_inv in H. destruct H as (rid & s2 & E2 & H).
  apply lift_ok_inv in E2. destruct E2 as [Hid ->].
  apply bind_ok_inv in H. destruct H as (u3 & s3 & E3 & H).
  apply keeps_ok in E3; [|now apply keeps_print_on]. destruct E3 as [F3 L3].
  apply bind_ok_inv in H. destruct H as (md & s4 & E4 & H).
  apply keeps_ok in E4; [|apply keeps_guarded_metadata]. destruct E4 as [F4 L4].
  apply bind_ok_inv in H. destruct H as (b & s5 & E5 & H).
  apply lift_ok_inv in E5. destruct E5 as [Hb ->].
  apply bind_ok_inv in H. destruct H as (f & s6 & E6 & H).
  apply keeps_ok in E6; [|apply keeps_get_files_on]. destruct E6 as [F6 L6].
  apply bind_ok_inv in H. destruct H as (p & s7 & E7 & H).
  apply lift_ok_inv in E7. destruct E7 as [Hp ->].
  apply bind_ok_inv in H. destruct H as (c & s8 & E8 & H).
  apply keeps_ok in E8; [|apply keeps_get_commit_frequency].
  destruct E8 as [F8 L8].
  apply bind_ok_inv in H. destruct H as (size_kb & s9 & E9 & H).
  apply lift_ok_inv in E9. destruct E9 as [Hsize ->].
  apply bind_ok_inv in H. destruct H as (u10 & s10 & E10 & H).
  apply writerow_on_ok_inv in E10. destruct E10 as (_ & F10 & L10).
  apply keeps_ok in H; [|now apply keeps_print_on]. destruct H as [F11 L11].
  exists (mkRow project_name rn size_kb (snd md) b f p c).
  split; [|split; [reflexivity | split; [exact Hname | congruence]]].
  rewrite F11, F10. congruence.
Qed.

Lemma repo_loop_on_ok (d : device) (w : world) (project_name : value)
    (repos : list value) (s s' : state) :
  for_each (repo_body_on d w project_name) repos s = (Ok tt, s') ->
  exists rows,
    csvfile s' = csvfile s ++ map Data rows
    /\ map row_key rows
       = map (fun repo =>
                (project_name,
                 match py_getitem repo "name" with
                 | Ok repo_name => repo_name
                 | Err _ => VNone
                 end)) repos
    /\ listing_errors s' = listing_errors s.
Proof.
  revert s. induction repos as [|repo repos IH]; intros s H.
  - cbn in H. injection H as <-. exists []. cbn. now rewrite app_nil_r.
  - rewrite for_each_cons in H.
    destruct (repo_body_on d w project_name repo s) as [[[]|e] s1] eqn:Hbody;
      [|discriminate].
    destruct (repo_body_on_ok _ _ _ _ _ _ Hbody) as (r & Hfile & Hproj & Hname & Herr).
    destruct (IH _ H) as (rows & Hrows & Hkeys & Herrs).
    exists (r :: rows). rewrite Hrows, Hfile, <- app_assoc.
    split; [reflexivity|]. split; [|congruence].
    cbn [map]. rewrite Hkeys, Hname. unfold row_key. now rewrite Hproj.
Qed.

Lemma listing_errors_entered (s : state) (project_name : value) :
  listing_errors (entered s project_name) = listing_errors s.
Proof.
  unfold listing_errors, entered. cbn [stdout].
  rewrite filter_app, length_app. cbn. lia.
Qed.

Lemma print_on_ok_inv (d : device) (ev : event) (s s1 : state) (u : unit) :
  print_on d ev s = (Ok u, s1) ->
  print_error d s ev = None /\ s1 = snd (print ev s).
Proof.
  unfold print_on. destruct (print_error d s ev); [discriminate|].
  intros H. rewrite H. now split.
Qed.

Lemma project_body_on_ok (d : device) (w : world) (project : value)
    (s s' : state) :
  project_body_on d w project s = (Ok tt, s') ->
  exists keys errs rows,
    project_outcome d w project keys errs
    /\ csvfile s' = csvfile s ++ map Data rows
    /\ map row_key rows = keys
    /\ listing_errors s' = (listing_errors s + errs)%nat.
Proof.
  unfold project_body_on. intros H.
  apply bind_ok_inv in H. destruct H as (pn & s1 & E1 & H).
  apply lift_ok_inv in E1. destruct E1 as [Hname ->].
  apply bind_ok_inv in H. destruct H as (u2 & s2 & E2 & H).
  apply print_on_ok_inv in E2. destruct E2 as [_ ->].
  change (snd (print (PrProcessingProject pn) s)) with (entered s pn) in H.
  apply bind_ok_inv in H. destruct H as (r & s3 & E3 & H).
  unfold list_or_skip_on, try_except, bind, lift in E3.
  destruct (get_repositories w pn) as [repositories|e] eqn:Hrepos.
  - destruct (py_not repositories) eqn:Hnot.
    + unfold writerow_on in E3.
      destruct (write_error d (entered s pn) (Data (placeholder_row pn)))
        as [e|] eqn:Hwrite.
      * unfold print_on in E3.
        destruct (print_error d (entered s pn)
                    (PrErrorFetchingRepositories pn e)); [discriminate|].
        cbn in E3. injection E3 as <- <-. cbn in H. injection H as <-.
        exists [], 1%nat, []. split; [eapply skipped_placeholder; eassumption|].
        split; [cbn; now rewrite app_nil_r | split; [reflexivity|]].
        unfold listing_errors. cbn [stdout].
        rewrite !filter_app, !length_app. cbn. lia.
      * cbn in E3. injection E3 as <- <-. cbn in H. injection H as <-.
        exists [(pn, VStr "N/A")], 0%nat, [placeholder_row pn].
        split; [eapply wrote_placeholder; eassumption|].
        split; [reflexivity | split; [reflexivity|]].
        unfold listing_errors. cbn [stdout].
        rewrite !filter_app, !length_app. cbn. lia.
    + cbn in E3. injection E3 as <- <-.
      apply bind_ok_inv in H. destruct H as (repos & s4 & E4 & H).
      apply lift_ok_inv in E4. destruct E4 as [Hiter ->].
      destruct (repo_loop_on_ok _ _ _ _ _ _ H) as (rows & Hrows & Hkeys & Herrs).
      assert (Hlist : repositories = VList repos /\ repos <> []).
      { destruct repositories as [| | | |str|l|dd]; try discriminate.
        - destruct str as [|c str]; [discriminate|].
          injection Hiter as <-. discriminate H.
        - injection Hiter as <-. split; [reflexivity|].
          destruct l; [discriminate | discriminate].
        - destruct dd as [|[k v] dd]; [discriminate|].
          injection Hiter as <-. discriminate H. }
      destruct Hlist as [-> Hne].
      exists (map row_key rows), 0%nat, rows.
      split; [rewrite Hkeys; now apply wrote_repositories|].
      split; [exact Hrows | split; [reflexivity|]].
      rewrite Herrs, listing_errors_entered. lia.
  - unfold print_on in E3.
    destruct (print_error d (entered s pn) (PrErrorFetchingRepositories pn e));
      [discriminate|].
    cbn in E3. injection E3 as <- <-. cbn in H. injection H as <-.
    exists [], 1%nat, []. split; [eapply skipped_listing; eassumption|].
    split; [cbn; now rewrite app_nil_r | split; [reflexivity|]].
    unfold listing_errors. cbn [stdout].
    rewrite !filter_app, !length_app. cbn. lia.
Qed.

Lemma project_loop_on_ok (d : device) (w : world) (projects : list value)
    (s s' : state) :
  for_each (project_body_on d w) projects s = (Ok tt, s') ->
  exists (outcomes : list (list (value * value) * nat)) rows,
    Forall2 (fun project o => project_outcome d w project (fst o) (snd o))
      projects outcomes
    /\ csvfile s' = csvfile s ++ map Data rows
    /\ map row_key rows = List.concat (map fst outcomes)
    /\ listing_errors s' = (listing_errors s + list_sum (map snd outcomes))%nat.
Proof.
  revert s. induction projects as [|project projects IH]; intros s H.
  - cbn in H. injection H as <-. exists [], []. cbn.
    rewrite app_nil_r. repeat split; [constructor | lia].
  - rewrite for_each_cons in H.
    destruct (project_body_on d w project s) as [[[]|e] s1] eqn:Hbody;
      [|discriminate].
    destruct (project_body_on_ok _ _ _ _ _ Hbody)
      as (keys & errs & rows1 & Hout & Hrows1 & Hkeys1 & Herrs1).
    destruct (IH _ H) as (outcomes & rows & Hall & Hrows & Hkeys & Herrs).
    exists ((keys, errs) :: outcomes), (rows1 ++ rows).
    split; [constructor; assumption|].
    split; [rewrite Hrows, Hrows1, <- app_assoc, map_app; reflexivity|].
    split; [rewrite map_app, Hkeys1, Hkeys; reflexivity|].
    rewrite Herrs, Herrs1. unfold list_sum. cbn [map fold_right snd]. lia.
Qed.

Lemma main_on_ok (d : device) (w : world) (s s' : state) :
  main_on d w s = (Ok tt, s') ->
  exists projects s1,
    listed_projects w = Ok projects
    /\ csvfile s1 = csvfile s ++ [Header]
    /\ listing_errors s1 = listing_errors s
    /\ for_each (project_body_on d w) projects s1 = (Ok tt, s').
Proof.
  unfold main_on, listed_projects. intros H.
  apply bind_ok_inv in H. destruct H as (u1 & s1 & E1 & H).
  apply keeps_ok in E1; [|now apply keeps_print_on]. destruct E1 as [F1 L1].
  apply bind_ok_inv in H. destruct H as (projects & s2 & E2 & H).
  apply lift_ok_inv in E2. destruct E2 as [Hp ->].
  apply bind_ok_inv in H. destruct H as (n & s3 & E3 & H).
  apply lift_ok_inv in E3. destruct E3 as [_ ->].
  apply bind_ok_inv in H. destruct H as (u4 & s4 & E4 & H).
  apply keeps_ok in E4; [|now apply keeps_print_on]. destruct E4 as [F4 L4].
  apply bind_ok_inv in H. destruct H as (u5 & s5 & E5 & H).
  apply keeps_ok in E5; [|apply keeps_open_on]. destruct E5 as [F5 L5].
  apply bind_ok_inv in H. destruct H as (u6 & s6 & E6 & H).
  unfold writeheader_on in E6.
  destruct (write_error d s5 Header); [discriminate|].
  injection E6 as _ <-.
  apply bind_ok_inv in H. destruct H as (items & s7 & E7 & H).
  apply lift_ok_inv in E7. destruct E7 as [Hi ->].
  exists items. eexists. rewrite Hp. cbn [rbind].
  split; [exact Hi|]. split; [|split; [|exact H]].
  - cbn [writeheader snd csvfile]. congruence.
  - unfold listing_errors in *. cbn [writeheader snd stdout]. congruence.
Qed.

Lemma outcome_rows (d : device) (w : world) (project : value)
    (keys : list (value * value)) (errs : nat) :
  project_outcome d w project keys errs ->
  project_rows d w project (List.length keys).
Proof.
  intros [pn repos Hn Hr Hne | pn v s1 Hn Hr Hnot Hw | pn e Hn Hr
         | pn v s1 e Hn Hr Hnot Hw].
  - rewrite length_map.
    replace (List.length repos) with (Nat.max 1 (repo_count (VList repos)))
      by (destruct repos; [contradiction | cbn; lia]).
    eapply rows_listed; eassumption.
  - cbn [List.length]. rewrite <- (falsy_listing v Hnot).
    eapply rows_listed; eassumption.
  - eapply rows_listing_raised; eassumption.
  - eapply rows_placeholder_refused; eassumption.
Qed.

Lemma outcome_rows_exact (d : device) (w : world) (project : value)
    (keys : list (value * value)) (errs : nat) :
  takes_every_row d ->
  project_outcome d w project keys errs ->
  List.length keys = rows_of_project w project
  /\ keys = expected_keys w project
  /\ errs = (if listing_raises w project then 1 else 0)%nat.
Proof.
  intros Hd [pn repos Hn Hr Hne | pn v s1 Hn Hr Hnot Hw | pn e Hn Hr
            | pn v s1 e Hn Hr Hnot Hw];
    unfold rows_of_project, expected_keys, listing_raises; rewrite Hn, Hr.
  - rewrite length_map. destruct repos; [contradiction|].
    cbn [py_not py_iter repo_count].
    split; [cbn [List.length]; lia | split; reflexivity].
  - rewrite Hnot, (falsy_listing v Hnot). split; [|split]; reflexivity.
  - split; [|split]; reflexivity.
  - rewrite (Hd s1 (placeholder_row pn)) in Hw. discriminate.
Qed.

(** ** Rows and error lines, project by project *)

(** C1, as the code has it: in a run that ends without an exception
    every project has one row per repository of its listing, or one
    placeholder row when the listing is empty, except the projects
    that are skipped, which have none: those whose listing raised and
    those whose placeholder row could not be written.  The rows
    written after the header are the sum of these; when the file
    takes every row, that is one row per repository and one per empty
    listing, over the projects whose listing did not raise.  Whether
    the metadata or the file count of a repository could be fetched
    does not enter the count. *)
Theorem rows_by_project (d : device) (w : world) (s s' : state) :
  main_on d w s = (Ok tt, s') ->
  exists projects counts,
    listed_projects w = Ok projects
    /\ Forall2 (project_rows d w) projects counts
    /\ List.length (data_rows (csvfile s'))
       = (List.length (data_rows (csvfile s)) + list_sum counts)%nat
    /\ (takes_every_row d -> counts = map (rows_of_project w) projects).
Proof.
  intros Hrun.
  destruct (main_on_ok _ _ _ _ Hrun) as (projects & s1 & Hp & Hfile1 & _ & Hloop).
  destruct (project_loop_on_ok _ _ _ _ _ Hloop)
    as (outcomes & rows & Hall & Hrows & Hkeys & _).
  exists projects, (map (fun o => List.length (fst o)) outcomes).
  split; [exact Hp|]. split; [|split].
  - clear - Hall. induction Hall as [|p o ps os Hout _ IH]; constructor.
    + eapply outcome_rows, Hout.
    + exact IH.
  - rewrite Hrows, Hfile1, !data_rows_app, data_rows_map_Data, !length_app.
    cbn [data_rows List.length].
    rewrite <- (length_map row_key rows), Hkeys, length_concat, map_map. lia.
  - intros Hd. clear - Hall Hd.
    induction Hall as [|p o ps os Hout _ IH]; [reflexivity|].
    cbn [map]. rewrite IH.
    destruct (outcome_rows_exact _ _ _ _ _ Hd Hout) as (-> & _). reflexivity.
Qed.

Lemma rows_by_project_witness :
  List.length
    (data_rows
       (csvfile
          (snd (main_on Faults.mute_metadata
                  (Scenario.with_reply Scenario.is_repository (Reply 404 None))
                  initial))))
  = 2%nat.
Proof.
  destruct (rows_by_project Faults.mute_metadata
              (Scenario.with_reply Scenario.is_repository (Reply 404 None))
              initial
              (snd (main_on Faults.mute_metadata
                      (Scenario.with_reply Scenario.is_repository
                         (Reply 404 None)) initial)))
    as (projects & counts & Hp & Hall & Hrows & Hexact).
  - vm_compute. reflexivity.
  - rewrite Hrows, Hexact by (intros s r; reflexivity).
    vm_compute in Hp. injection Hp as <-. reflexivity.
Defined.

(** ** The placeholder row *)

(** C5 as it is stated does not hold: the listing of Beta succeeds
    and is empty, but the file cannot take a row of Beta; what
    writing the placeholder row raises is caught by the handler of
    the listing, the error line is printed and Beta has no row. *)
Lemma placeholder_row_can_be_lost :
  get_repositories Scenario.org (VStr "Beta") = Ok (VList [])
  /\ for_each (project_body_on (Faults.unencodable "Beta") Scenario.org)
       [Scenario.named "Beta"] initial
     = (Ok tt,
        mkState []
          [PrProcessingProject (VStr "Beta");
           PrErrorFetchingRepositories (VStr "Beta") UnicodeEncodeError]
          0%nat).
Proof. split; reflexivity. Qed.

(** C5, as the code has it: for a project whose repository listing
    succeeds with an empty sequence, once the line that says it is
    processed is printed, either the placeholder row is written,
    exactly one row with "N/A" in every metric field, or writing it
    raises and the exception is caught: the error line is printed
    and the project has no row.  Either way the loop goes on with the
    next project; only an error line that cannot be printed ends the
    run. *)
Theorem empty_project_row_or_error_line
    (d : device) (w : world) (project project_name : value)
    (rest : list value) (s : state) :
  py_getitem project "name" = Ok project_name ->
  get_repositories w project_name = Ok (VList []) ->
  print_error d s (PrProcessingProject project_name) = None ->
  for_each (project_body_on d w) (project :: rest) s
  = match write_error d (entered s project_name)
            (Data (placeholder_row project_name)) with
    | None =>
        for_each (project_body_on d w) rest
          (mkState (csvfile s ++ [Data (placeholder_row project_name)])
             (stdout s ++ [PrProcessingProject project_name]) (ticks s))
    | Some e =>
        match print_error d (entered s project_name)
                (PrErrorFetchingRepositories project_name e) with
        | None =>
            for_each (project_body_on d w) rest
              (mkState (csvfile s)
                 (stdout s ++ [PrProcessingProject project_name;
                               PrErrorFetchingRepositories project_name e])
                 (ticks s))
        | Some e' => (Err e', entered s project_name)
        end
    end
  /\ placeholder_row project_name
     = mkRow project_name (VStr "N/A") (VStr "N/A") (VStr "N/A")
         (VStr "N/A") (VStr "N/A") (VStr "N/A") (VStr "N/A").
Proof.
  intros Hname Hrepos Hprint. split; [|reflexivity].
  rewrite for_each_cons.
  unfold project_body_on, list_or_skip_on, try_except, bind, lift.
  rewrite Hname. unfold print_on at 1. rewrite Hprint, Hrepos.
  cbn [print py_not fst snd]. fold (entered s project_name).
  unfold writerow_on.
  destruct (write_error d (entered s project_name)
              (Data (placeholder_row project_name))) as [e|].
  - unfold print_on.
    destruct (print_error d (entered s project_name)
                (PrErrorFetchingRepositories project_name e)); [reflexivity|].
    cbn. unfold entered. cbn. now rewrite <- app_assoc.
  - reflexivity.
Qed.

Lemma empty_project_row_or_error_line_witness :
  for_each (project_body_on reliable Scenario.org) [Scenario.named "Beta"] initial
  = (Ok tt,
     mkState [Data (placeholder_row (VStr "Beta"))]
       [PrProcessingProject (VStr "Beta")] 0%nat)
  /\ for_each (project_body_on (Faults.unencodable "Beta") Scenario.org)
       [Scenario.named "Beta"] initial
     = (Ok tt,
        mkState []
          [PrProcessingProject (VStr "Beta");
           PrErrorFetchingRepositories (VStr "Beta") UnicodeEncodeError]
          0%nat).
Proof.
  split.
  - destruct (empty_project_row_or_error_line reliable Scenario.org
                (Scenario.named "Beta") (VStr "Beta") [] initial
                eq_refl eq_refl eq_refl) as [H _].
    exact H.
  - destruct (empty_project_row_or_error_line (Faults.unencodable "Beta")
                Scenario.org (Scenario.named "Beta") (VStr "Beta") [] initial
                eq_refl eq_refl eq_refl) as [H _].
    exact H.
Defined.

(** X5: a repository listing whose "value" is not a list but is
    false in a condition (null, false, 0, the empty string, the empty
    object) is treated as an empty project: when the line that says
    the project is processed can be printed and the file takes the
    placeholder row, that row is written and the loop goes on. *)
Theorem falsy_listing_gets_placeholder
    (d : device) (w : world) (project project_name repositories : value)
    (rest : list value) (s : state) :
  py_getitem project "name" = Ok project_name ->
  get_repositories w project_name = Ok repositories ->
  In repositories [VNone; VBool false; VInt 0; VStr ""; VDict []] ->
  print_error d s (PrProcessingProject project_name) = None ->
  write_error d (entered s project_name) (Data (placeholder_row project_name))
  = None ->
  for_each (project_body_on d w) (project :: rest) s
  = for_each (project_body_on d w) rest
      (mkState (csvfile s ++ [Data (placeholder_row project_name)])
         (stdout s ++ [PrProcessingProject project_name]) (ticks s)).
Proof.
  intros Hname Hrepos Hin Hprint Hwrite.
  rewrite for_each_cons.
  unfold project_body_on, list_or_skip_on, try_except, bind, lift.
  rewrite Hname. unfold print_on at 1. rewrite Hprint, Hrepos.
  cbn [print fst snd]. fold (entered s project_name).
  assert (Hnot : py_not repositories = true).
  { cbn [In] in Hin. destruct Hin as [<-|[<-|[<-|[<-|[<-|[]]]]]]; reflexivity. }
  rewrite Hnot. unfold writerow_on. rewrite Hwrite. reflexivity.
Qed.

Lemma falsy_listing_gets_placeholder_witness :
  for_each
    (project_body_on (Faults.unencodable "Beta")
       (Scenario.with_reply (Scenario.is_repositories_of "Alpha")
          (Scenario.json (VDict [("value", VNone)]))))
    [Scenario.named "Alpha"] initial
  = (Ok tt,
     mkState [Data (placeholder_row (VStr "Alpha"))]
       [PrProcessingProject (VStr "Alpha")] 0%nat).
Proof.
  apply (falsy_listing_gets_placeholder (Faults.unencodable "Beta")
           (Scenario.with_reply (Scenario.is_repositories_of "Alpha")
              (Scenario.json (VDict [("value", VNone)])))
           (Scenario.named "Alpha") (VStr "Alpha") VNone [] initial);
    [reflexivity | reflexivity | left; reflexivity | reflexivity | reflexivity].
Defined.

(** ** Discovery order and error lines *)

(** X3: the rows of a run that ends normally come in discovery order:
    read from top to bottom, their project and repository columns
    are, project after project in the order of the project listing,
    those of each project: the name of the project with the name of
    each repository in the order of the repository listing, or with
    "N/A" for an empty listing, or nothing for a project that was
    skipped.  When the file takes every row, no project is skipped
    but those whose listing raised. *)
Theorem rows_in_listing_order (d : device) (w : world) (s s' : state) :
  main_on d w s = (Ok tt, s') ->
  exists projects (outcomes : list (list (value * value) * nat)) rows,
    listed_projects w = Ok projects
    /\ Forall2 (fun project o => project_outcome d w project (fst o) (snd o))
         projects outcomes
    /\ csvfile s' = csvfile s ++ Header :: map Data rows
    /\ map row_key rows = List.concat (map fst outcomes)
    /\ (takes_every_row d ->
        map row_key rows = flat_map (expected_keys w) projects).
Proof.
  intros Hrun.
  destruct (main_on_ok _ _ _ _ Hrun) as (projects & s1 & Hp & Hfile1 & _ & Hloop).
  destruct (project_loop_on_ok _ _ _ _ _ Hloop)
    as (outcomes & rows & Hall & Hrows & Hkeys & _).
  exists projects, outcomes, rows.
  split; [exact Hp|]. split; [exact Hall|].
  split; [rewrite Hrows, Hfile1, <- app_assoc; reflexivity|].
  split; [exact Hkeys|].
  intros Hd. rewrite Hkeys. clear - Hall Hd.
  induction Hall as [|p o ps os Hout _ IH]; [reflexivity|].
  cbn [map List.concat flat_map]. rewrite IH.
  destruct (outcome_rows_exact _ _ _ _ _ Hd Hout) as (_ & -> & _). reflexivity.
Qed.

Lemma rows_in_listing_order_witness :
  exists rows,
    csvfile (snd (main_on Faults.mute_metadata Scenario.org initial))
    = Header :: map Data rows
    /\ map row_key rows
       = [(VStr "Alpha", VStr "repoA"); (VStr "Beta", VStr "N/A")].
Proof.
  destruct (rows_in_listing_order Faults.mute_metadata Scenario.org initial
              (snd (main_on Faults.mute_metadata Scenario.org initial)))
    as (projects & outcomes & rows & Hp & _ & Hfile & _ & Hkeys).
  - vm_compute. reflexivity.
  - exists rows. split; [exact Hfile|].
    rewrite Hkeys by (intros s r; reflexivity).
    vm_compute in Hp. injection Hp as <-. reflexivity.
Defined.

(** X15: in a run that ends normally, the line "Error fetching
    repositories for project ..." is printed exactly once for each
    project that is skipped, because its listing raised or because
    its placeholder row could not be written, and for no other
    project.  When the file takes every row, these are the projects
    whose listing raised. *)
Theorem error_lines_are_skipped_projects
    (d : device) (w : world) (s s' : state) :
  main_on d w s = (Ok tt, s') ->
  exists projects (outcomes : list (list (value * value) * nat)),
    listed_projects w = Ok projects
    /\ Forall2 (fun project o => project_outcome d w project (fst o) (snd o))
         projects outcomes
    /\ listing_errors s'
       = (listing_errors s + list_sum (map snd outcomes))%nat
    /\ (takes_every_row d ->
        listing_errors s'
        = (listing_errors s
           + List.length (filter (listing_raises w) projects))%nat).
Proof.
  intros Hrun.
  destruct (main_on_ok _ _ _ _ Hrun) as (projects & s1 & Hp & _ & Herr1 & Hloop).
  destruct (project_loop_on_ok _ _ _ _ _ Hloop)
    as (outcomes & rows & Hall & _ & _ & Herrs).
  exists projects, outcomes.
  split; [exact Hp|]. split; [exact Hall|].
  split; [congruence|].
  intros Hd. rewrite Herrs, Herr1. f_equal. clear - Hall Hd.
  induction Hall as [|p o ps os Hout _ IH]; [reflexivity|].
  unfold list_sum in *. cbn [map fold_right filter]. rewrite IH.
  destruct (outcome_rows_exact _ _ _ _ _ Hd Hout) as (_ & _ & ->).
  destruct (listing_raises w p); reflexivity.
Qed.

Lemma error_lines_are_skipped_projects_witness :
  listing_errors
    (snd (main_on Faults.mute_metadata
            (Scenario.with_reply (Scenario.is_repositories_of "Alpha")
               (Reply 500 None)) initial))
  = 1%nat.
Proof.
  destruct (error_lines_are_skipped_projects Faults.mute_metadata
              (Scenario.with_reply (Scenario.is_repositories_of "Alpha")
                 (Reply 500 None))
              initial
              (snd (main_on Faults.mute_metadata
                      (Scenario.with_reply (Scenario.is_repositories_of "Alpha")
                         (Reply 500 None)) initial)))
    as (projects & outcomes & Hp & _ & _ & Herr).
  - vm_compute. reflexivity.
  - rewrite Herr by (intros s r; reflexivity).
    vm_compute in Hp. injection Hp as <-. reflexivity.
Defined.

(** ** The metadata step *)

(** X8: the metadata step of [main], that is the call of
    [get_repository_metadata] with the [try] statement around it,
    never raises: it always yields a pair, prints at most one line
    and leaves the file and the clock alone.  The function itself
    raises only when the line that one of its [except] clauses prints
    cannot be printed; the pair is then ("Error", "Error"), also for
    a 404 response. *)
Theorem metadata_step_never_raises
    (d : device) (w : world) (repo_id project_name : value) (s : state) :
  exists md evs,
    guarded_metadata d w repo_id project_name s
    = (Ok md, mkState (csvfile s) (stdout s ++ evs) (ticks s))
    /\ (List.length evs <= 1)%nat
    /\ (forall e,
          fst (get_repository_metadata_on d w repo_id project_name s) = Err e ->
          md = (VStr "Error", VStr "Error")
          /\ evs = []
          /\ exists e0 ev,
              repository_metadata_body w repo_id project_name = Err e0
              /\ print_error d s ev = Some e).
Proof.
  unfold guarded_metadata, get_repository_metadata_on, try_except, lift,
    bind, print_on, print, ret.
  destruct (repository_metadata_body w repo_id project_name)
    as [v|[st| | | | | | | |]] eqn:Hbody; try destruct (st =? 404);
    match goal with
    | |- context [print_error d s ?ev] =>
        destruct (print_error d s ev) as [e1|] eqn:Hprint
    | _ => idtac
    end; cbn [fst snd];
    eexists; eexists;
    (split; [try reflexivity; f_equal; apply state_eta|]);
    (split; [cbn; lia|]); intros e He; try discriminate;
    injection He as <-;
    (split; [reflexivity|]); (split; [reflexivity|]);
    eexists; eexists; (split; [reflexivity | exact Hprint]).
Qed.

Lemma metadata_step_never_raises_witness :
  guarded_metadata Faults.mute_metadata
    (Scenario.with_reply Scenario.is_repository (Reply 404 None))
    (VStr "r-1") (VStr "Alpha") initial
  = (Ok (VStr "Error", VStr "Error"), initial)
  /\ fst (get_repository_metadata_on Faults.mute_metadata
            (Scenario.with_reply Scenario.is_repository (Reply 404 None))
            (VStr "r-1") (VStr "Alpha") initial)
     = Err UnicodeEncodeError.
Proof.
  split; [|reflexivity].
  destruct (metadata_step_never_raises Faults.mute_metadata
              (Scenario.with_reply Scenario.is_repository (Reply 404 None))
              (VStr "r-1") (VStr "Alpha") initial)
    as (md & evs & Hrun & _ & Hraise).
  destruct (Hraise UnicodeEncodeError eq_refl) as (-> & -> & _).
  exact Hrun.
Defined.
